(** * H02 protocol decoding: a shallow embedding of [protocols/h02.py] and
    [protocols/h02/packet_decoder/packet_decoder.py]

    Python values are modelled as follows.
    - [str] is [string]; a character is a code point below 256.
    - [int] is [Z] (unbounded, two's complement bit operations).
    - [float] is IEEE 754 binary64, see [Module Float]: every operation is
      the exact rational result rounded to nearest, ties to even.
    - a call that may raise returns [result A]; [Raise e] names the
      exception class. *)

From Stdlib Require Import ZArith QArith Qround Qabs Qpower Lia Lqa Bool List.
From Stdlib Require Import Strings.Ascii Strings.String Strings.Byte.
Import ListNotations.

Local Open Scope string_scope.
Local Open Scope Z_scope.

(** ** Exceptions and results *)

Inductive exn : Set :=
| ValueError
| AttributeError
| IndexError
| ZeroDivisionError
| OverflowError
| UnicodeDecodeError
| RegExMatchError
| BadProtocolError.

Inductive result (A : Type) : Type :=
| Ok (a : A)
| Raise (e : exn).

Arguments Ok {A} a.
Arguments Raise {A} e.

Definition bind {A B : Type} (r : result A) (k : A -> result B) : result B :=
  match r with
  | Ok a => k a
  | Raise e => Raise e
  end.

Notation "x <- c ;; k" := (bind c (fun x => k))
  (at level 61, c at next level, right associativity).

Definition exn_eqb (a b : exn) : bool :=
  match a, b with
  | ValueError, ValueError
  | AttributeError, AttributeError
  | IndexError, IndexError
  | ZeroDivisionError, ZeroDivisionError
  | OverflowError, OverflowError
  | UnicodeDecodeError, UnicodeDecodeError
  | RegExMatchError, RegExMatchError
  | BadProtocolError, BadProtocolError => true
  | _, _ => false
  end.

(** ** Characters *)

Module Char.

Definition ord (c : ascii) : Z := Z.of_N (N_of_ascii c).

Definition chr (z : Z) : ascii := ascii_of_N (Z.to_N z).

(** The decimal digits among the code points below 256, which are the
    ASCII digits: what [\d] matches and what [int] and [float] read as a
    digit there. (Above 255 Python also reads the decimal digits of other
    scripts; the strings of this model do not hold them.) *)
Definition is_digit (c : ascii) : bool := (48 <=? ord c) && (ord c <=? 57).

(** The characters that [int] and [float] strip from both ends of their
    argument, among the code points below 256: tab to carriage return, the
    space, and the two white space characters above 127 (next line and
    no-break space). The separators 28 to 31 are white space for
    [str.isspace] but are not stripped. *)
Definition is_space (c : ascii) : bool :=
  let n := ord c in
  ((9 <=? n) && (n <=? 13)) || (n =? 32) || (n =? 133) || (n =? 160).

(** CPython's [_PyLong_DigitValue]: 0-9, then a-z and A-Z as 10-35, and 37
    for every other character. *)
Definition digit_value (c : ascii) : Z :=
  let n := ord c in
  if (48 <=? n) && (n <=? 57) then n - 48
  else if (97 <=? n) && (n <=? 122) then n - 87
  else if (65 <=? n) && (n <=? 90) then n - 55
  else 37.

Definition is_hex (c : ascii) : bool := digit_value c <? 16.

Definition lower (c : ascii) : ascii :=
  let n := ord c in
  if (65 <=? n) && (n <=? 90) then chr (n + 32) else c.

End Char.

(** ** Strings *)

Module Str.

Fixpoint lstrip (s : string) : string :=
  match s with
  | String c t => if Char.is_space c then lstrip t else s
  | EmptyString => s
  end.

Fixpoint rev_acc (s acc : string) : string :=
  match s with
  | String c t => rev_acc t (String c acc)
  | EmptyString => acc
  end.

Definition rev (s : string) : string := rev_acc s "".

Definition strip (s : string) : string := rev (lstrip (rev (lstrip s))).

Fixpoint all (p : ascii -> bool) (s : string) : bool :=
  match s with
  | String c t => p c && all p t
  | EmptyString => true
  end.

Fixpoint take (n : nat) (s : string) : string :=
  match n, s with
  | S k, String c t => String c (take k t)
  | _, _ => ""
  end.

Fixpoint drop (n : nat) (s : string) : string :=
  match n, s with
  | S k, String _ t => drop k t
  | _, _ => s
  end.

Fixpoint repeat (c : ascii) (n : nat) : string :=
  match n with
  | O => ""
  | S k => String c (repeat c k)
  end.

Fixpoint map (f : ascii -> ascii) (s : string) : string :=
  match s with
  | String c t => String (f c) (map f t)
  | EmptyString => ""
  end.

End Str.

(** ** [int(s)] and [int(s, 16)]

    CPython's [PyLong_FromString]: leading white space, an optional sign,
    for base 16 an optional [0x] prefix (one underscore may follow it),
    then digits of the base with single underscores between them, then
    trailing white space. Anything else raises [ValueError]. *)

Module PyInt.

(** The digit loop: [prev_us] tells that the previous character was an
    underscore, [seen] that a digit has been read, [acc] is the value so
    far. Returns the value and the unread rest. *)
Fixpoint scan_digits (base : Z) (s : string) (prev_us seen : bool) (acc : Z)
  : option (Z * string) :=
  match s with
  | String c t =>
      if Ascii.eqb c "_" then
        if prev_us then None else scan_digits base t true seen acc
      else if Char.digit_value c <? base then
        scan_digits base t false true (acc * base + Char.digit_value c)
      else if prev_us || negb seen then None else Some (acc, s)
  | EmptyString => if prev_us || negb seen then None else Some (acc, s)
  end.

Definition strip_sign (s : string) : bool * string :=
  match s with
  | String c t =>
      if Ascii.eqb c "+" then (false, t)
      else if Ascii.eqb c "-" then (true, t)
      else (false, s)
  | EmptyString => (false, s)
  end.

Definition strip_prefix (base : Z) (s : string) : string :=
  match s with
  | String c0 (String c1 t) =>
      if (base =? 16) && Ascii.eqb c0 "0"
         && (Ascii.eqb c1 "x" || Ascii.eqb c1 "X") then
        match t with
        | String c2 t' => if Ascii.eqb c2 "_" then t' else t
        | EmptyString => t
        end
      else s
  | _ => s
  end.

Definition parse (base : Z) (s : string) : result Z :=
  let (neg, s1) := strip_sign (Str.lstrip s) in
  let s2 := strip_prefix base s1 in
  match s2 with
  | String c _ =>
      if Ascii.eqb c "_" then Raise ValueError
      else
        match scan_digits base s2 false false 0 with
        | Some (v, rest) =>
            match Str.lstrip rest with
            | EmptyString => Ok (if neg then - v else v)
            | String _ _ => Raise ValueError
            end
        | None => Raise ValueError
        end
  | EmptyString => Raise ValueError
  end.

(** [int(s)] *)
Definition int10 (s : string) : result Z := parse 10 s.

(** [int(s, 16)] *)
Definition int16 (s : string) : result Z := parse 16 s.

(** [a << n]: a negative shift count raises [ValueError]. *)
Definition lshift (a n : Z) : result Z :=
  if n <? 0 then Raise ValueError else Ok (Z.shiftl a n).

End PyInt.

(** ** [float]: IEEE 754 binary64

    A finite nonzero double is [Finite neg m e], of value
    [(-1)^neg * m * 2^e], kept canonical: [2^52 <= m < 2^53] with
    [-1074 <= e <= 971], or [m < 2^52] with [e = -1074] (subnormal).
    Every operation returns the exact rational result rounded to the
    nearest double, ties to the even mantissa. *)

Module Float.

Inductive float : Set :=
| Zero (neg : bool)
| Inf (neg : bool)
| NaN
| Finite (neg : bool) (m : positive) (e : Z).

Definition emin : Z := -1074.
Definition emax : Z := 971.

Definition pow2 (e : Z) : Q := Qpower 2 e.

Definition is_neg (x : float) : bool :=
  match x with
  | Zero s | Inf s | Finite s _ _ => s
  | NaN => false
  end.

(** The value of a finite double; 0 for the others. *)
Definition to_Q (x : float) : Q :=
  match x with
  | Finite s m e => (if s then -1 else 1) * inject_Z (Zpos m) * pow2 e
  | _ => 0
  end.

(** [floor (log2 q)] for [0 < q]. *)
Definition ilog2 (q : Q) : Z :=
  let z := Z.log2 (Qnum q) - Z.log2 (Zpos (Qden q)) in
  if Qle_bool (pow2 z) q then z else z - 1.

(** The integer nearest to [q], ties to even. *)
Definition rne (q : Q) : Z :=
  let f := Qfloor q in
  match Qcompare (q - inject_Z f) (1 # 2) with
  | Lt => f
  | Gt => f + 1
  | Eq => if Z.even f then f else f + 1
  end.

(** Rounding of a positive rational to a double of sign [neg]. *)
Definition round_pos (neg : bool) (q : Q) : float :=
  let e := Z.max (ilog2 q - 52) emin in
  let m := rne (q / pow2 e) in
  let '(m', e') := if m =? 2 ^ 53 then (2 ^ 52, e + 1) else (m, e) in
  if m' =? 0 then Zero neg
  else if emax <? e' then Inf neg
  else Finite neg (Z.to_pos m') e'.

(** Rounding of any rational; [neg0] is the sign of an exact zero. *)
Definition of_Q (neg0 : bool) (q : Q) : float :=
  match Qnum q with
  | Z0 => Zero neg0
  | Zpos _ => round_pos false q
  | Zneg _ => round_pos true (- q)
  end.

(** [float(z)] for an [int]. *)
Definition of_int (z : Z) : result float :=
  match of_Q false (inject_Z z) with
  | Inf _ => Raise OverflowError
  | x => Ok x
  end.

Definition add (x y : float) : float :=
  match x, y with
  | NaN, _ | _, NaN => NaN
  | Inf a, Inf b => if Bool.eqb a b then Inf a else NaN
  | Inf a, _ => Inf a
  | _, Inf b => Inf b
  | Zero a, Zero b => Zero (a && b)
  | _, _ => of_Q false (to_Q x + to_Q y)
  end.

Definition mul (x y : float) : float :=
  let s := xorb (is_neg x) (is_neg y) in
  match x, y with
  | NaN, _ | _, NaN => NaN
  | Inf _, Zero _ | Zero _, Inf _ => NaN
  | Inf _, _ | _, Inf _ => Inf s
  | _, _ => of_Q s (to_Q x * to_Q y)
  end.

(** [x / y]: a zero divisor raises before anything else is looked at. *)
Definition truediv (x y : float) : result float :=
  let s := xorb (is_neg x) (is_neg y) in
  match x, y with
  | _, Zero _ => Raise ZeroDivisionError
  | NaN, _ | _, NaN => Ok NaN
  | Inf _, Inf _ => Ok NaN
  | Inf _, _ => Ok (Inf s)
  | _, Inf _ => Ok (Zero s)
  | Zero _, _ => Ok (Zero s)
  | _, _ => Ok (of_Q s (to_Q x / to_Q y))
  end.

(** *** [float(s)] for a string

    CPython: underscores are checked and removed, white space is stripped,
    then the text is [sign? (digits (. digits?)? | . digits) exponent?]
    or, ignoring case, [sign? (inf | infinity | nan)]. The decimal value is
    rounded correctly; a value too large gives an infinity. *)

(** [_Py_string_to_number_with_underscores]: an underscore must have a
    digit on both sides. [prev] is the previous character. *)
Fixpoint remove_underscores (s : string) (prev : ascii) : option string :=
  match s with
  | String c t =>
      if Ascii.eqb c "_" then
        if Char.is_digit prev then remove_underscores t c else None
      else if Ascii.eqb prev "_" && negb (Char.is_digit c) then None
      else option_map (String c) (remove_underscores t c)
  | EmptyString => if Ascii.eqb prev "_" then None else Some ""
  end.

(** Reads the longest run of decimal digits: its value, its length and
    the rest. *)
Fixpoint digits (s : string) (acc : Z) (n : nat) : Z * nat * string :=
  match s with
  | String c t =>
      if Char.is_digit c then digits t (acc * 10 + (Char.ord c - 48)) (S n)
      else (acc, n, s)
  | EmptyString => (acc, n, s)
  end.

(** An exponent part, when a complete one is present. *)
Definition exponent (s : string) : Z * string :=
  match s with
  | String c t =>
      if Ascii.eqb c "e" || Ascii.eqb c "E" then
        let (neg, t') := PyInt.strip_sign t in
        let '(v, n, rest) := digits t' 0 0%nat in
        match n with
        | O => (0, s)
        | S _ => (if neg then - v else v, rest)
        end
      else (0, s)
  | EmptyString => (0, s)
  end.

(** [v * 10^e] *)
Definition decimal_Q (v e : Z) : Q :=
  if 0 <=? e then inject_Z (v * 10 ^ e) else v # Z.to_pos (10 ^ (- e)).

(** The decimal number at the head of [s]: its value and the rest. *)
Definition strtod (s : string) : option (Q * string) :=
  let '(i, ni, s1) := digits s 0 0%nat in
  let '(f, nf, s2) :=
    match s1 with
    | String c t => if Ascii.eqb c "." then digits t i 0%nat else (i, 0%nat, s1)
    | EmptyString => (i, 0%nat, s1)
    end in
  match (ni + nf)%nat with
  | O => None
  | S _ =>
      let (e, s3) := exponent s2 in
      Some (decimal_Q f (e - Z.of_nat nf), s3)
  end.

Definition parse_inf_or_nan (neg : bool) (s : string) : option float :=
  let l := Str.map Char.lower s in
  if String.eqb l "inf" || String.eqb l "infinity" then Some (Inf neg)
  else if String.eqb l "nan" then Some NaN
  else None.

Definition of_string (s : string) : result float :=
  match remove_underscores s "000" with
  | None => Raise ValueError
  | Some s0 =>
      let (neg, body) := PyInt.strip_sign (Str.strip s0) in
      match strtod body with
      | Some (q, EmptyString) => Ok (of_Q neg (if neg then - q else q))
      | Some (_, String _ _) => Raise ValueError
      | None =>
          match parse_inf_or_nan neg body with
          | Some x => Ok x
          | None => Raise ValueError
          end
      end
  end.

(** *** [format(x, '.Nf')] and zero padding *)

Definition digit_char (d : Z) : ascii := Char.chr (48 + d).

Fixpoint decimal_loop (fuel : nat) (n : Z) (acc : string) : string :=
  match fuel with
  | O => acc
  | S k =>
      let acc' := String (digit_char (n mod 10)) acc in
      if n <? 10 then acc' else decimal_loop k (n / 10) acc'
  end.

(** The decimal digits of [0 <= n], without leading zeros. *)
Definition decimal (n : Z) : string :=
  decimal_loop (S (Z.to_nat (Z.log2 n))) n "".

(** The last [w] decimal digits of [n], in front of [acc]. *)
Fixpoint fixed (w : nat) (n : Z) (acc : string) : string :=
  match w with
  | O => acc
  | S k => fixed k (n / 10) (String (digit_char (n mod 10)) acc)
  end.

Definition sign_string (neg : bool) : string := if neg then "-" else "".

(** [format(x, '.Nf')] with [N = places]: the exact value of [x] rounded
    to [places] decimals, ties to even. *)
Definition format_f (places : nat) (x : float) : string :=
  match x with
  | NaN => "nan"
  | Inf s => sign_string s ++ "inf"
  | _ =>
      let p := 10 ^ Z.of_nat places in
      let n := rne (Qabs (to_Q x) * inject_Z p) in
      sign_string (is_neg x) ++ decimal (n / p)
        ++ match places with
           | O => ""
           | S _ => String "." (fixed places (n mod p) "")
           end
  end.

(** The [0] flag with a width: zeros go between the sign and the rest. *)
Definition zero_pad (width : nat) (s : string) : string :=
  let zeros := Str.repeat "0" (width - String.length s) in
  match s with
  | String c t =>
      if Ascii.eqb c "-" || Ascii.eqb c "+" then String c (zeros ++ t)
      else zeros ++ s
  | EmptyString => zeros
  end.

End Float.

(** ** [re.match] with the two coordinate patterns

    [coordinate n s] is [re.match(r'(-?\d{n})(\d{2}.\d{4})', s)]: the
    pattern is tried at the start of [s] only and need not reach its end;
    [.] is any character but a line feed. The result holds groups 1 and 2. *)

Module Re.

Definition is_dot_char (c : ascii) : bool := negb (Ascii.eqb c "010").

Definition digits_then (n : nat) (s : string) : option (string * string) :=
  let d := Str.take n s in
  if (String.length d =? n)%nat && Str.all Char.is_digit d
  then Some (d, Str.drop n s) else None.

(** The pattern after the optional sign. *)
Definition coordinate_body (n : nat) (sign s : string)
  : option (string * string) :=
  match digits_then n s with
  | Some (deg, s1) =>
      match digits_then 2 s1 with
      | Some (mm, String c s2) =>
          if is_dot_char c then
            match digits_then 4 s2 with
            | Some (frac, _) => Some (sign ++ deg, mm ++ String c frac)
            | None => None
            end
          else None
      | _ => None
      end
  | None => None
  end.

(** [-?] is greedy: the sign is taken first, and given back if the rest
    does not match. *)
Definition coordinate (n : nat) (s : string) : option (string * string) :=
  match s with
  | String c t =>
      if Ascii.eqb c "-" then
        match coordinate_body n "-" t with
        | Some g => Some g
        | None => coordinate_body n "" s
        end
      else coordinate_body n "" s
  | EmptyString => coordinate_body n "" s
  end.

(** [match.group(i)] for [i = 1, 2]; on [None] the attribute is missing. *)
Definition group (m : option (string * string)) (i : nat) : result string :=
  match m with
  | Some (g1, g2) => Ok (match i with 1%nat => g1 | _ => g2 end)
  | None => Raise AttributeError
  end.

End Re.

(** ** [helpers.chunks.get_chunks] *)

Module Chunks.

Fixpoint get_chunks_fuel (fuel : nat) (s : string) (n : nat) : list string :=
  match fuel, s with
  | S k, String _ _ => Str.take n s :: get_chunks_fuel k (Str.drop n s) n
  | _, _ => []
  end.

(** Modelled from the spec: [helpers/chunks.py] is not among the sources.
    The spec has the status blob "split into ... 2-character tokens in
    transmission order": [get_chunks s n] yields the successive slices
    [s[i:i+n]] for [i = 0, n, 2n, ...] below [len(s)]. *)
Definition get_chunks (s : string) (n : nat) : list string :=
  match n with
  | O => []
  | S _ => get_chunks_fuel (String.length s) s n
  end.

End Chunks.

(** ** [class H02] *)

Module H02.

(** The object after [__init__]. [regex_match i] is
    [self.regex_match.group(i)], the text captured by group [i] of the
    sentence pattern. The pattern and the base class [BaseProtocol] are not
    among the sources: [super().__init__(regex_match)] is taken to keep the
    match as [self.regex_match], which the methods below read. *)
Record t : Type := mk {
  regex_match : nat -> string;
  vehicle_status_bytes : list string;
  vehicle_status_first_byte : string;
  vehicle_status_second_byte : string;
  vehicle_status_third_byte : string;
  vehicle_status_fourth_byte : string;
  _maker : string;
  _device_serial_number : string;
  _time : string;
  _validity : string;
  _direction : string;
  _mobile_country_code : string;
  _mobile_network_code : string;
  _local_area_code : string;
  _cell_id : string
}.

(** A method receives the object and returns it with its result, so that
    an assignment to an attribute of [self] would show. *)
Definition method (A : Type) : Type := t -> result A * t.

(** [l[i]] *)
Definition index (l : list string) (i : nat) : result string :=
  match nth_error l i with
  | Some x => Ok x
  | None => Raise IndexError
  end.

Definition __init__ (m : nat -> string) : result t :=
  let bytes := Chunks.get_chunks (m 13%nat) 2 in
  b0 <- index bytes 0 ;;
  b1 <- index bytes 1 ;;
  b2 <- index bytes 2 ;;
  b3 <- index bytes 3 ;;
  Ok {| regex_match := m;
        vehicle_status_bytes := bytes;
        vehicle_status_first_byte := b0;
        vehicle_status_second_byte := b1;
        vehicle_status_third_byte := b2;
        vehicle_status_fourth_byte := b3;
        _maker := m 1%nat;
        _device_serial_number := m 2%nat;
        _time := m 4%nat;
        _validity := m 5%nat;
        _direction := m 11%nat;
        _mobile_country_code := m 14%nat;
        _mobile_network_code := m 15%nat;
        _local_area_code := m 16%nat;
        _cell_id := m 17%nat |}.

(** [get_bit_state(hex_byte, attribute_bit_location)]; the mask is
    [1 << (attribute_bit_location - 1)], as [-] binds tighter than [<<]. *)
Definition get_bit_state (hex_byte : string) (attribute_bit_location : Z)
  : result Z :=
  byte_val <- PyInt.int16 hex_byte ;;
  mask <- PyInt.lshift 1 (attribute_bit_location - 1) ;;
  if Z.land byte_val mask =? 0 then Ok 1 else Ok 0.

Definition _acc : method Z := fun self =>
  (get_bit_state (vehicle_status_third_byte self) 6, self).

(** The literal [1.852]. *)
Definition knot : Float.float := Float.of_Q false (1852 # 1000).

Definition speed_of (raw_speed : string) : result Float.float :=
  knots <- Float.of_string raw_speed ;;
  let kmh := Float.mul knots knot in
  let kmh_formatted := Float.zero_pad 5 (Float.format_f 2 kmh) in
  Float.of_string kmh_formatted.

Definition _speed : method Float.float := fun self =>
  (speed_of (regex_match self 10%nat), self).

(** The body shared by [_latitude] ([n = 2]) and [_longitude] ([n = 3]),
    which differ in the pattern only. *)
Definition decimal_degrees (n : nat) (raw : string) : result Float.float :=
  let m := Re.coordinate n raw in
  g1 <- Re.group m 1 ;;
  degrees <- PyInt.int10 g1 ;;
  g2 <- Re.group m 2 ;;
  minutes <- Float.of_string g2 ;;
  sixty <- Float.of_int 60 ;;
  q <- Float.truediv minutes sixty ;;
  d <- Float.of_int degrees ;;
  let result := Float.add d q in
  let result_formatted := Float.format_f 6 result in
  Float.of_string result_formatted.

Definition _latitude : method Float.float := fun self =>
  (decimal_degrees 2 (regex_match self 6%nat), self).

Definition _longitude : method Float.float := fun self =>
  (decimal_degrees 3 (regex_match self 8%nat), self).

End H02.

(** ** [H02PacketDecoder.decode]

    The two packet decoders of [protocols/h02/decoders] and the payload
    class [H02Location] are not among the sources: they are parameters.
    A decoder may read and change the state of the interpreter, [World]. *)

Module PacketDecoder.

Section Decode.

Context {World Location : Type}.

Variable decode_h02_ascii_packet :
  list byte -> World -> result Location * World.
Variable decode_h02_binary_packet :
  list byte -> World -> result Location * World.

(** [raw_bytes.startswith(prefix)] for a one-byte prefix. *)
Definition startswith (raw_bytes : list byte) (b : byte) : bool :=
  match raw_bytes with
  | x :: _ => Byte.eqb x b
  | [] => false
  end.

(** [except (UnicodeDecodeError, RegExMatchError, BadProtocolError): raise] *)
Definition reraise (r : result Location * World) : result Location * World :=
  match r with
  | (Raise e, w) =>
      if exn_eqb e UnicodeDecodeError || exn_eqb e RegExMatchError
         || exn_eqb e BadProtocolError
      then (Raise e, w) else (Raise e, w)
  | ok => ok
  end.

Definition decode (raw_bytes : list byte) (w : World)
  : result Location * World :=
  reraise
    (if startswith raw_bytes "*"%byte then
       decode_h02_ascii_packet raw_bytes w
     else if startswith raw_bytes "$"%byte then
       decode_h02_binary_packet raw_bytes w
     else (Raise BadProtocolError, w)).

End Decode.

End PacketDecoder.

(** ** Decimal notation, for the statements

    [Decimal.value s] is the number written by the digit string [s]. *)

Module Decimal.

Fixpoint value_from (s : string) (acc : Z) : Z :=
  match s with
  | String c t => value_from t (10 * acc + (Char.ord c - 48))
  | EmptyString => acc
  end.

Definition value (s : string) : Z := value_from s 0.

Definition all_digits (s : string) : bool := Str.all Char.is_digit s.

(** Neither an underscore nor white space. *)
Definition clean (c : ascii) : bool :=
  negb (Ascii.eqb c "_") && negb (Char.is_space c).

(** The head of [s], if any, is not a digit. *)
Definition stops (s : string) : bool :=
  match s with
  | String c _ => negb (Char.is_digit c)
  | EmptyString => true
  end.

Definition digit_chars : list ascii := list_ascii_of_string "0123456789".

Definition hex_chars : list ascii :=
  list_ascii_of_string "0123456789abcdefABCDEF".

End Decimal.

(** ** Finite doubles, for the statements *)

Module FloatKind.

(** Doubles that are finite, a zero being the positive one. *)
Definition plain (x : Float.float) : Prop :=
  match x with
  | Float.Zero s => s = false
  | Float.Finite _ _ _ => True
  | _ => False
  end.

End FloatKind.

(** ** The coordinate shape, for the statements *)

Module Shape.



(** [degrees + minutes / 60] in exact arithmetic, [minutes] being
    [k / 10^4]. *)
Definition decimal_degrees (degrees k : Z) : Q :=
  (inject_Z degrees + (k # 10000) / 60)%Q.

(** [knots * 1.852] in exact arithmetic, [knots] being [k / 100]. *)
Definition kmh (k : Z) : Q := ((k # 100) * (1852 # 1000))%Q.

End Shape.

(** ** Repeated calls, for the statements *)

Module Twice.


(** Two calls of [decode] on the same bytes, one after the other. *)
Definition decode {World Location : Type}
  (ascii_decoder binary_decoder : list byte -> World -> result Location * World)
  (raw_bytes : list byte) (w : World) : result Location * result Location :=
  let (r1, w1) := PacketDecoder.decode ascii_decoder binary_decoder raw_bytes w in
  let (r2, _) := PacketDecoder.decode ascii_decoder binary_decoder raw_bytes w1 in
  (r1, r2).

End Twice.

(** ** The byte behind the bit states, for the statements *)

Module Bits.

(** Reads the states at [positions] and puts a bit of weight
    [2^(pos - 1)] for every state 0 (inactive). *)
Fixpoint byte_of_states (hex_byte : string) (positions : list Z)
  : result Z :=
  match positions with
  | [] => Ok 0
  | pos :: rest =>
      state <- H02.get_bit_state hex_byte pos ;;
      byte <- byte_of_states hex_byte rest ;;
      Ok ((1 - state) * 2 ^ (pos - 1) + byte)
  end.

(** [hex_byte.lower()], for a token of ASCII characters. *)
Definition lower (hex_byte : string) : string := Str.map Char.lower hex_byte.

End Bits.

(** ** Doubles that are not finite, for the statements *)

Module FloatSpecial.

Definition not_finite (x : Float.float) : Prop :=
  match x with
  | Float.Inf _ | Float.NaN => True
  | _ => False
  end.

(** A separator that [float] does not read inside a number. *)
Definition bad_separator (c : ascii) : bool :=
  negb (Char.is_digit c) && negb (Ascii.eqb c ".")
  && negb (Ascii.eqb c "_") && negb (Ascii.eqb c "e")
  && negb (Ascii.eqb c "E").

End FloatSpecial.

(** * Proofs *)

(** * Bit operations *)

Lemma land_bit (v n : Z) :
  0 <= n -> Z.land v (Z.shiftl 1 n) = if Z.testbit v n then 2 ^ n else 0.
Proof.
  intros Hn. rewrite Z.shiftl_1_l. apply Z.bits_inj'. intros k Hk.
  rewrite Z.land_spec, Z.pow2_bits_eqb by lia.
  destruct (Z.eqb_spec n k) as [->|Hne].
  - destruct (Z.testbit v k) eqn:E; simpl.
    + rewrite Z.pow2_bits_eqb by lia. now rewrite Z.eqb_refl.
    + now rewrite Z.bits_0.
  - rewrite andb_false_r. destruct (Z.testbit v n).
    + rewrite Z.pow2_bits_eqb by lia. symmetry. now apply Z.eqb_neq.
    + now rewrite Z.bits_0.
Qed.

Lemma testbit_div_mod (v n : Z) :
  0 <= n -> (Z.testbit v n = true <-> (v / 2 ^ n) mod 2 = 1).
Proof.
  intros Hn. rewrite Z.testbit_true by lia. reflexivity.
Qed.

Lemma testbit_above (v n m : Z) :
  0 <= v < 2 ^ n -> 0 <= n <= m -> Z.testbit v m = false.
Proof.
  intros Hv Hm. rewrite <- (Z.mod_small v (2 ^ n)) by lia.
  apply Z.mod_pow2_bits_high. lia.
Qed.

(** * Hexadecimal tokens *)

Lemma is_hex_cases (c : ascii) : Char.is_hex c = true -> In c Decimal.hex_chars.
Proof.
  destruct c as [[] [] [] [] [] [] [] []]; intros H;
    vm_compute in H; try discriminate H; simpl; tauto.
Qed.

Lemma digit_value_nonneg (c : ascii) : 0 <= Char.digit_value c.
Proof.
  unfold Char.digit_value.
  repeat match goal with
         | |- context [if ?b then _ else _] => destruct b eqn:?
         end; lia.
Qed.

Lemma int16_two_hex (c1 c2 : ascii) :
  Char.is_hex c1 = true -> Char.is_hex c2 = true ->
  PyInt.int16 (String c1 (String c2 ""))
  = Ok (16 * Char.digit_value c1 + Char.digit_value c2).
Proof.
  intros H1 H2. apply is_hex_cases in H1. apply is_hex_cases in H2.
  simpl in H1, H2.
  repeat (destruct H1 as [<-|H1]); try contradiction;
    repeat (destruct H2 as [<-|H2]); try contradiction;
    vm_compute; reflexivity.
Qed.

Lemma two_hex_range (c1 c2 : ascii) :
  Char.is_hex c1 = true -> Char.is_hex c2 = true ->
  0 <= 16 * Char.digit_value c1 + Char.digit_value c2 < 256.
Proof.
  unfold Char.is_hex. intros H1%Z.ltb_lt H2%Z.ltb_lt.
  pose proof (digit_value_nonneg c1). pose proof (digit_value_nonneg c2).
  lia.
Qed.

(** The result of [get_bit_state] on a token that parses to [v], for a
    position from 1 up. *)
Lemma get_bit_state_testbit (tok : string) (v pos : Z) :
  PyInt.int16 tok = Ok v -> 1 <= pos ->
  H02.get_bit_state tok pos = Ok (if Z.testbit v (pos - 1) then 0 else 1).
Proof.
  intros Hv Hpos. unfold H02.get_bit_state, PyInt.lshift. rewrite Hv. simpl.
  destruct (Z.ltb_spec (pos - 1) 0) as [|_]; [lia|]. simpl.
  rewrite land_bit by lia.
  destruct (Z.testbit v (pos - 1)).
  - assert (0 < 2 ^ (pos - 1)) by (apply Z.pow_pos_nonneg; lia).
    destruct (Z.eqb_spec (2 ^ (pos - 1)) 0); [lia | reflexivity].
  - reflexivity.
Qed.

(** C1: for a token of two hexadecimal digits and a position from 1 to 8,
    [get_bit_state] parses the token to the byte [v = 16 * d1 + d2] and
    returns 0 (inactive) exactly when bit [pos - 1] of [v] is 1, and 1
    (active) exactly when it is 0; bit [pos - 1] is the binary digit of
    weight [2 ^ (pos - 1)], so position 1 has weight 1 and position 8 has
    weight 128. *)
Theorem get_bit_state_negative_logic (c1 c2 : ascii) (pos : Z) :
  Char.is_hex c1 = true -> Char.is_hex c2 = true -> 1 <= pos <= 8 ->
  let tok := String c1 (String c2 "") in
  let v := 16 * Char.digit_value c1 + Char.digit_value c2 in
  PyInt.int16 tok = Ok v /\ 0 <= v < 256 /\
  (H02.get_bit_state tok pos = Ok 0 <-> (v / 2 ^ (pos - 1)) mod 2 = 1) /\
  (H02.get_bit_state tok pos = Ok 1 <-> (v / 2 ^ (pos - 1)) mod 2 = 0).
Proof.
  intros H1 H2 Hpos tok v.
  assert (Hv : PyInt.int16 tok = Ok v) by now apply int16_two_hex.
  split; [exact Hv|]. split; [now apply two_hex_range|].
  rewrite (get_bit_state_testbit tok v pos Hv) by lia.
  pose proof (testbit_div_mod v (pos - 1) ltac:(lia)) as Hb.
  assert (Hm : 0 <= (v / 2 ^ (pos - 1)) mod 2 < 2)
    by (apply Z.mod_pos_bound; lia).
  destruct (Z.testbit v (pos - 1)); split; split; intros E;
    try reflexivity; try discriminate E.
  - now apply Hb.
  - assert ((v / 2 ^ (pos - 1)) mod 2 = 1) by now apply Hb. lia.
  - destruct Hb as [_ Hb]. assert (false = true) by (apply Hb; exact E).
    discriminate.
  - destruct (Z.eq_dec ((v / 2 ^ (pos - 1)) mod 2) 1) as [E1|E1].
    + destruct Hb as [_ Hb]. specialize (Hb E1). discriminate.
    + lia.
Qed.

Lemma get_bit_state_negative_logic_witness :
  H02.get_bit_state "9F" 6 = Ok 1 <-> (159 / 2 ^ (6 - 1)) mod 2 = 0.
Proof.
  apply (get_bit_state_negative_logic "9" "F" 6); [reflexivity | reflexivity | lia].
Defined.

(** C9: for a token of two hexadecimal digits and a position of 9 or
    more, [get_bit_state] raises nothing and returns 1. *)
Theorem get_bit_state_high_position (c1 c2 : ascii) (pos : Z) :
  Char.is_hex c1 = true -> Char.is_hex c2 = true -> 9 <= pos ->
  H02.get_bit_state (String c1 (String c2 "")) pos = Ok 1.
Proof.
  intros H1 H2 Hpos.
  rewrite (get_bit_state_testbit _ _ pos (int16_two_hex c1 c2 H1 H2)) by lia.
  rewrite (testbit_above _ 8 (pos - 1)).
  - reflexivity.
  - change (2 ^ 8) with 256. now apply two_hex_range.
  - lia.
Qed.

Lemma get_bit_state_high_position_witness :
  H02.get_bit_state "FF" 12 = Ok 1.
Proof.
  apply (get_bit_state_high_position "F" "F" 12); [reflexivity | reflexivity | lia].
Defined.

(** C5, as stated, fails: position 9 raises no error. *)
Lemma get_bit_state_position_9_no_error :
  H02.get_bit_state "FF" 9 = Ok 1
  /\ forall e, H02.get_bit_state "FF" 9 <> Raise e.
Proof.
  split; [reflexivity | intros e H; discriminate H].
Qed.

(** C5, amended: for a token of two hexadecimal digits and a position
    below 1 (0 and -1 among them), [get_bit_state] raises [ValueError],
    the error of a negative shift count. *)
Theorem get_bit_state_low_position (c1 c2 : ascii) (pos : Z) :
  Char.is_hex c1 = true -> Char.is_hex c2 = true -> pos < 1 ->
  H02.get_bit_state (String c1 (String c2 "")) pos = Raise ValueError.
Proof.
  intros H1 H2 Hpos. unfold H02.get_bit_state, PyInt.lshift.
  rewrite (int16_two_hex c1 c2 H1 H2). simpl.
  destruct (Z.ltb_spec (pos - 1) 0); [reflexivity | lia].
Qed.

Lemma get_bit_state_low_position_witness :
  H02.get_bit_state "FF" 0 = Raise ValueError
  /\ H02.get_bit_state "FF" (-1) = Raise ValueError.
Proof.
  split.
  - apply (get_bit_state_low_position "F" "F" 0); [reflexivity | reflexivity | lia].
  - apply (get_bit_state_low_position "F" "F" (-1)); [reflexivity | reflexivity | lia].
Defined.

(** * Rounding to an integer *)

Module FloatFacts.

Import Float FloatKind.

Local Open Scope Q_scope.

Lemma rne_bound (q : Q) : - (1 # 2) <= inject_Z (rne q) - q <= 1 # 2.
Proof.
  unfold rne.
  pose proof (Qfloor_le q) as Hlo. pose proof (Qlt_floor q) as Hhi.
  rewrite inject_Z_plus in Hhi. change (inject_Z 1) with 1 in Hhi.
  destruct (Qcompare_spec (q - inject_Z (Qfloor q)) (1 # 2)) as [E|E|E].
  - destruct (Z.even (Qfloor q));
      [|rewrite inject_Z_plus; change (inject_Z 1) with 1]; lra.
  - lra.
  - rewrite inject_Z_plus. change (inject_Z 1) with 1. lra.
Qed.

Lemma rne_proper (q q' : Q) : q == q' -> rne q = rne q'.
Proof.
  intros E. unfold rne. rewrite (Qfloor_comp _ _ E).
  assert (E' : q - inject_Z (Qfloor q') == q' - inject_Z (Qfloor q'))
    by now rewrite E.
  now rewrite (Qcompare_comp _ _ E' _ _ (Qeq_refl (1 # 2))).
Qed.

(** * Powers of two *)

Lemma pow2_pos (e : Z) : 0 < pow2 e.
Proof. apply Qpower_0_lt. reflexivity. Qed.

Lemma pow2_add (a b : Z) : pow2 (a + b) == pow2 a * pow2 b.
Proof. apply Qpower_plus. discriminate. Qed.

Lemma pow2_nonneg_Z (e : Z) : (0 <= e)%Z -> pow2 e == inject_Z (2 ^ e).
Proof. intros H. unfold pow2. now rewrite Zpower_Qpower. Qed.

Lemma pow2_lt (a b : Z) : (a < b)%Z -> pow2 a < pow2 b.
Proof. intros H. apply Qpower_lt_compat_l; [exact H | reflexivity]. Qed.

Lemma pow2_le (a b : Z) : (a <= b)%Z -> pow2 a <= pow2 b.
Proof. intros H. apply Qpower_le_compat_l; [exact H | discriminate]. Qed.

Lemma pow2_lt_inv (a b : Z) : pow2 a < pow2 b -> (a < b)%Z.
Proof. intros H. apply (Qpower_lt_compat_l_inv 2); [exact H | reflexivity]. Qed.

Lemma pow2_succ (a : Z) : pow2 (a + 1) == 2 * pow2 a.
Proof. rewrite pow2_add. change (pow2 1) with 2. ring. Qed.

(** * The binary exponent of a positive rational *)

Lemma log2_bounds (n : positive) :
  inject_Z (2 ^ Z.log2 (Zpos n)) <= inject_Z (Zpos n)
  /\ inject_Z (Zpos n) < inject_Z (2 ^ (Z.log2 (Zpos n) + 1)).
Proof.
  destruct (Z.log2_spec (Zpos n)) as [H1 H2]; [reflexivity|].
  split; [rewrite <- Zle_Qle | rewrite <- Zlt_Qlt]; [exact H1|].
  now rewrite <- Z.add_1_r in H2.
Qed.

Lemma ilog2_spec (q : Q) :
  0 < q -> pow2 (ilog2 q) <= q /\ q < pow2 (ilog2 q + 1).
Proof.
  intros Hq. destruct q as [n d]. unfold ilog2. cbn [Qnum Qden].
  destruct n as [|n|n]; [discriminate Hq | | discriminate Hq].
  set (ln := Z.log2 (Zpos n)). set (ld := Z.log2 (Zpos d)).
  destruct (log2_bounds n) as [Hn1 Hn2]. destruct (log2_bounds d) as [Hd1 Hd2].
  fold ln in Hn1, Hn2. fold ld in Hd1, Hd2.
  assert (Hln : (0 <= ln)%Z) by apply Z.log2_nonneg.
  assert (Hld : (0 <= ld)%Z) by apply Z.log2_nonneg.
  rewrite <- pow2_nonneg_Z in Hn1, Hn2, Hd1, Hd2 by lia.
  assert (Hq' : Zpos n # d == inject_Z (Zpos n) / inject_Z (Zpos d))
    by apply Qmake_Qdiv.
  assert (Hdpos : 0 < inject_Z (Zpos d)) by reflexivity.
  set (N := inject_Z (Zpos n)) in *. set (D := inject_Z (Zpos d)) in *.
  assert (HqD : (Zpos n # d) * D == N).
  { rewrite Hq'. field. intros E. rewrite E in Hdpos. discriminate Hdpos. }
  (* bounds of q by powers of two *)
  assert (Hup : Zpos n # d < pow2 (ln - ld + 1)).
  { apply (Qmult_lt_r _ _ D Hdpos). rewrite HqD.
    apply Qlt_le_trans with (pow2 (ln + 1)); [exact Hn2|].
    replace (ln + 1)%Z with ((ln - ld + 1) + ld)%Z by ring.
    rewrite pow2_add. apply Qmult_le_l; [apply pow2_pos | exact Hd1]. }
  assert (Hlow : pow2 (ln - ld - 1) < Zpos n # d).
  { apply (Qmult_lt_r _ _ D Hdpos). rewrite HqD.
    apply Qlt_le_trans with (pow2 ln); [|exact Hn1].
    replace ln with ((ln - ld - 1) + (ld + 1))%Z at 2 by ring.
    rewrite pow2_add. apply Qmult_lt_l; [apply pow2_pos | exact Hd2]. }
  destruct (Qle_bool (pow2 (ln - ld)) (Zpos n # d)) eqn:E.
  - apply Qle_bool_iff in E. split; assumption.
  - assert (Hlt : Zpos n # d < pow2 (ln - ld)).
    { apply Qnot_le_lt. intros H. apply Qle_bool_iff in H. congruence. }
    replace (ln - ld - 1 + 1)%Z with (ln - ld)%Z by ring.
    split; [apply Qlt_le_weak; exact Hlow | exact Hlt].
Qed.

Lemma ilog2_unique (q : Q) (z : Z) :
  pow2 z <= q -> q < pow2 (z + 1) -> ilog2 q = z.
Proof.
  intros H1 H2.
  assert (Hq : 0 < q) by (apply Qlt_le_trans with (pow2 z); [apply pow2_pos | exact H1]).
  destruct (ilog2_spec q Hq) as [H3 H4].
  assert (ilog2 q < z + 1)%Z
    by (apply pow2_lt_inv; apply Qle_lt_trans with q; assumption).
  assert (z < ilog2 q + 1)%Z
    by (apply pow2_lt_inv; apply Qle_lt_trans with q; assumption).
  lia.
Qed.

Lemma ilog2_proper (q q' : Q) : 0 < q -> q == q' -> ilog2 q = ilog2 q'.
Proof.
  intros Hq E. symmetry. apply ilog2_unique; rewrite <- E; now apply ilog2_spec.
Qed.

Lemma ilog2_lt (q : Q) (p : Z) : 0 < q -> q < pow2 p -> (ilog2 q < p)%Z.
Proof.
  intros Hq H. apply pow2_lt_inv.
  apply Qle_lt_trans with q; [now apply ilog2_spec | exact H].
Qed.

Lemma ilog2_ge (q : Q) (p : Z) : pow2 p <= q -> (p <= ilog2 q)%Z.
Proof.
  intros H.
  assert (Hq : 0 < q) by (apply Qlt_le_trans with (pow2 p); [apply pow2_pos | exact H]).
  assert (p < ilog2 q + 1)%Z; [|lia].
  apply pow2_lt_inv. apply Qle_lt_trans with q; [exact H | now apply ilog2_spec].
Qed.

(** * Rounding to a double *)

Lemma round_pos_proper (s : bool) (q q' : Q) :
  0 < q -> q == q' -> round_pos s q = round_pos s q'.
Proof.
  intros Hq E. unfold round_pos. rewrite (ilog2_proper q q' Hq E).
  set (e := Z.max (ilog2 q' - 52) emin).
  assert (E' : q / pow2 e == q' / pow2 e) by now rewrite E.
  now rewrite (rne_proper _ _ E').
Qed.

Lemma Qnum_sign (q : Q) :
  match Qnum q with
  | Z0 => q == 0
  | Zpos _ => 0 < q
  | Zneg _ => q < 0
  end.
Proof.
  destruct q as [[|n|n] d]; cbn [Qnum]; reflexivity.
Qed.

Lemma of_Q_zero (s : bool) (q : Q) : q == 0 -> of_Q s q = Zero s.
Proof.
  intros E. unfold of_Q. pose proof (Qnum_sign q) as H.
  destruct (Qnum q); [reflexivity | lra | lra].
Qed.

Lemma of_Q_pos (s : bool) (q : Q) : 0 < q -> of_Q s q = round_pos false q.
Proof.
  intros E. unfold of_Q. pose proof (Qnum_sign q) as H.
  destruct (Qnum q); [lra | reflexivity | lra].
Qed.

Lemma of_Q_neg (s : bool) (q : Q) : q < 0 -> of_Q s q = round_pos true (- q).
Proof.
  intros E. unfold of_Q. pose proof (Qnum_sign q) as H.
  destruct (Qnum q); [lra | lra | reflexivity].
Qed.

Lemma of_Q_proper (s : bool) (q q' : Q) : q == q' -> of_Q s q = of_Q s q'.
Proof.
  intros E. destruct (Q_dec q 0) as [[H|H]|H].
  - rewrite !of_Q_neg by lra. apply round_pos_proper; [lra | now rewrite E].
  - rewrite !of_Q_pos by lra. apply round_pos_proper; [lra | exact E].
  - rewrite !of_Q_zero by lra. reflexivity.
Qed.

Lemma of_Q_sign_irrelevant (s s' : bool) (q : Q) :
  ~ q == 0 -> of_Q s q = of_Q s' q.
Proof.
  intros H. destruct (Q_dec q 0) as [[H'|H']|H'].
  - now rewrite !of_Q_neg.
  - now rewrite !of_Q_pos.
  - contradiction.
Qed.

(** A positive rational in the normal range rounds to a finite double,
    within a relative error of [2^-53]. *)
Lemma round_pos_normal (s : bool) (q : Q) :
  pow2 (-1022) <= q -> q < pow2 1023 ->
  exists m e,
    round_pos s q = Finite s m e
    /\ Qabs (inject_Z (Zpos m) * pow2 e - q) <= q * pow2 (-53).
Proof.
  intros Hlo Hhi.
  assert (Hq : 0 < q)
    by (apply Qlt_le_trans with (pow2 (-1022)); [apply pow2_pos | exact Hlo]).
  pose proof (ilog2_ge q _ Hlo) as Hz1.
  pose proof (ilog2_lt q _ Hq Hhi) as Hz2.
  destruct (ilog2_spec q Hq) as [Hq1 Hq2].
  unfold round_pos. set (z := ilog2 q) in *.
  replace (Z.max (z - 52) emin) with (z - 52)%Z by (unfold emin; lia).
  set (e := (z - 52)%Z). set (P := pow2 e).
  assert (HP : 0 < P) by apply pow2_pos.
  set (x := q / P).
  assert (Hx : q == x * P)
    by (unfold x; field; intros E; rewrite E in HP; discriminate HP).
  assert (Hz : pow2 z == pow2 52 * P)
    by (unfold P, e; rewrite <- pow2_add; now replace (52 + (z - 52))%Z with z by ring).
  assert (Hz' : pow2 (z + 1) == pow2 53 * P).
  { unfold P, e. rewrite <- pow2_add.
    now replace (53 + (z - 52))%Z with (z + 1)%Z by ring. }
  assert (Hx1 : pow2 52 <= x).
  { apply (Qmult_le_r _ _ P HP). rewrite <- Hx, <- Hz. exact Hq1. }
  assert (Hx2 : x < pow2 53).
  { apply (Qmult_lt_r _ _ P HP). rewrite <- Hx, <- Hz'. exact Hq2. }
  pose proof (rne_bound x) as Hm. set (m := rne x) in *.
  rewrite (pow2_nonneg_Z 52) in Hx1 by lia.
  rewrite (pow2_nonneg_Z 53) in Hx2 by lia.
  assert (Hm1 : (2 ^ 52 <= m)%Z).
  { assert (2 ^ 52 - 1 < m)%Z; [|lia]. rewrite Zlt_Qlt.
    unfold Z.sub. rewrite inject_Z_plus, inject_Z_opp.
    change (inject_Z 1) with 1.
    generalize dependent (inject_Z (2 ^ 52)). intros; lra. }
  assert (Hm2 : (m <= 2 ^ 53)%Z).
  { assert (m < 2 ^ 53 + 1)%Z; [|lia]. rewrite Zlt_Qlt.
    rewrite inject_Z_plus. change (inject_Z 1) with 1.
    generalize dependent (inject_Z (2 ^ 53)). intros; lra. }
  assert (Herr : Qabs (inject_Z m * P - q) <= q * pow2 (-53)).
  { apply Qabs_Qle_condition.
    assert (Hhalf : P * (1 # 2) <= q * pow2 (-53)).
    { assert (Hh : P * (1 # 2) == pow2 z * pow2 (-53)).
      { rewrite Hz. change (pow2 52) with (inject_Z (2 ^ 52)).
        assert (Hc : inject_Z (2 ^ 52) * pow2 (-53) == 1 # 2) by reflexivity.
        rewrite <- Hc. ring. }
      rewrite Hh. apply Qmult_le_r; [apply pow2_pos | exact Hq1]. }
    assert (Hd : inject_Z m * P - q == (inject_Z m - x) * P) by (rewrite Hx; ring).
    rewrite Hd. destruct Hm as [Hma Hmb].
    apply (Qmult_le_r _ _ P HP) in Hma. apply (Qmult_le_r _ _ P HP) in Hmb.
    lra. }
  destruct (Z.eqb_spec m (2 ^ 53)) as [Em|Em].
  - change (2 ^ 52 =? 0)%Z with false. cbv iota.
    destruct (Z.ltb_spec emax (e + 1)) as [Hov|_]; [unfold emax, e in Hov; lia|].
    exists (Z.to_pos (2 ^ 52)), (e + 1)%Z. split; [reflexivity|].
    rewrite Em in Herr.
    assert (Hv : inject_Z (Zpos (Z.to_pos (2 ^ 52))) * pow2 (e + 1)
                 == inject_Z (2 ^ 53) * P).
    { rewrite pow2_succ. fold P.
      change (inject_Z (Zpos (Z.to_pos (2 ^ 52)))) with (inject_Z (2 ^ 52)).
      assert (Hc : inject_Z (2 ^ 53) == inject_Z (2 ^ 52) * 2) by reflexivity.
      rewrite Hc. ring. }
    now rewrite Hv.
  - destruct (Z.eqb_spec m 0) as [E0|_]; [lia|].
    destruct (Z.ltb_spec emax e) as [Hov|_]; [unfold emax, e in Hov; lia|].
    exists (Z.to_pos m), e. split; [reflexivity|].
    rewrite Z2Pos.id by lia. exact Herr.
Qed.

(** [of_Q false q] for [q] either zero or of normal magnitude. *)
Lemma of_Q_spec (q : Q) :
  Qabs q < pow2 1023 -> (q == 0 \/ pow2 (-1022) <= Qabs q) ->
  plain (of_Q false q)
  /\ Qabs (to_Q (of_Q false q) - q) <= Qabs q * pow2 (-53)
  /\ (0 <= q -> is_neg (of_Q false q) = false)
  /\ (q < 0 -> is_neg (of_Q false q) = true).
Proof.
  intros Hhi Hlo.
  assert (Hp : 0 < pow2 (-1022)) by apply pow2_pos.
  destruct (Q_dec q 0) as [[H|H]|H].
  - assert (Ha : Qabs q == - q) by (apply Qabs_neg; lra).
    destruct Hlo as [Hlo|Hlo]; [lra|]. rewrite Ha in Hlo, Hhi.
    destruct (round_pos_normal true (- q) Hlo Hhi) as (m & e & Hr & He).
    rewrite of_Q_neg, Hr by exact H. cbn [plain is_neg to_Q].
    repeat split; [| intros; lra].
    rewrite Ha.
    assert (Hd : -1 * inject_Z (Zpos m) * pow2 e - q
                 == - (inject_Z (Zpos m) * pow2 e - - q)) by ring.
    now rewrite Hd, Qabs_opp.
  - assert (Ha : Qabs q == q) by (apply Qabs_pos; lra).
    destruct Hlo as [Hlo|Hlo]; [lra|]. rewrite Ha in Hlo, Hhi.
    destruct (round_pos_normal false q Hlo Hhi) as (m & e & Hr & He).
    rewrite of_Q_pos, Hr by exact H. cbn [plain is_neg to_Q].
    repeat split; [| intros; lra].
    rewrite Ha.
    assert (Hd : 1 * inject_Z (Zpos m) * pow2 e - q
                 == inject_Z (Zpos m) * pow2 e - q) by ring.
    now rewrite Hd.
  - rewrite of_Q_zero by exact H. cbn [plain is_neg to_Q].
    repeat split; [| intros; lra].
    assert (Hd : 0 - q == 0) by lra. rewrite Hd, H. discriminate.
Qed.

(** The arithmetic operations on plain doubles. *)

Lemma add_plain (x y : float) :
  plain x -> plain y -> add x y = of_Q false (to_Q x + to_Q y).
Proof.
  destruct x as [[]| | |sx mx ex], y as [[]| | |sy my ey];
    cbn [plain]; intros Hx Hy; try discriminate; try contradiction;
    reflexivity.
Qed.

Lemma mul_plain (x y : float) :
  plain x -> plain y -> is_neg x = false -> is_neg y = false ->
  mul x y = of_Q false (to_Q x * to_Q y).
Proof.
  destruct x as [[]| | |[] mx ex], y as [[]| | |[] my ey];
    cbn [plain is_neg]; intros Hx Hy Hsx Hsy;
    try discriminate; try contradiction; reflexivity.
Qed.

Lemma truediv_plain (x : float) (m : positive) (e : Z) :
  plain x -> is_neg x = false ->
  truediv x (Finite false m e)
  = Ok (of_Q false (to_Q x / to_Q (Finite false m e))).
Proof.
  destruct x as [[]| | |[] mx ex]; cbn [plain is_neg]; intros Hx Hs;
    try discriminate; try contradiction; reflexivity.
Qed.

End FloatFacts.

(** * Strings *)

Module StrFacts.

Import Decimal.

Lemma append_assoc (a b c : string) : (a ++ b) ++ c = a ++ (b ++ c).
Proof. induction a as [|x a IH]; simpl; [reflexivity | now rewrite IH]. Qed.

Lemma append_nil_r (a : string) : a ++ "" = a.
Proof. induction a as [|x a IH]; simpl; [reflexivity | now rewrite IH]. Qed.

Lemma length_append (a b : string) :
  String.length (a ++ b) = (String.length a + String.length b)%nat.
Proof. induction a as [|x a IH]; simpl; [reflexivity | now rewrite IH]. Qed.

Lemma all_append (p : ascii -> bool) (a b : string) :
  Str.all p (a ++ b) = Str.all p a && Str.all p b.
Proof.
  induction a as [|x a IH]; simpl; [reflexivity|].
  now rewrite IH, andb_assoc.
Qed.

Lemma all_impl (p q : ascii -> bool) (s : string) :
  (forall c, p c = true -> q c = true) ->
  Str.all p s = true -> Str.all q s = true.
Proof.
  intros Hpq. induction s as [|x s IH]; simpl; [reflexivity|].
  intros [Hx Hs]%andb_true_iff. rewrite (Hpq x Hx). now apply IH.
Qed.

Lemma take_append (a b : string) : Str.take (String.length a) (a ++ b) = a.
Proof. induction a as [|x a IH]; simpl; [now destruct b | now rewrite IH]. Qed.

Lemma drop_append (a b : string) : Str.drop (String.length a) (a ++ b) = b.
Proof. induction a as [|x a IH]; simpl; [now destruct b | exact IH]. Qed.

(** ** Reversal and stripping *)

Lemma rev_acc_rev_acc (s a b : string) :
  Str.rev_acc (Str.rev_acc s a) b = Str.rev_acc a (s ++ b).
Proof.
  revert a. induction s as [|x s IH]; intros a; simpl; [reflexivity|].
  now rewrite IH.
Qed.

Lemma rev_involutive (s : string) : Str.rev (Str.rev s) = s.
Proof.
  unfold Str.rev. rewrite rev_acc_rev_acc. simpl. apply append_nil_r.
Qed.

Lemma all_rev_acc (p : ascii -> bool) (s a : string) :
  Str.all p (Str.rev_acc s a) = Str.all p s && Str.all p a.
Proof.
  revert a. induction s as [|x s IH]; intros a; simpl; [reflexivity|].
  rewrite IH. simpl. now rewrite andb_assoc, (andb_comm (Str.all p s)), <- andb_assoc.
Qed.

Lemma lstrip_no_space (s : string) :
  Str.all (fun c => negb (Char.is_space c)) s = true -> Str.lstrip s = s.
Proof.
  destruct s as [|x s]; simpl; [reflexivity|].
  intros [Hx _]%andb_true_iff. apply negb_true_iff in Hx. now rewrite Hx.
Qed.

Lemma strip_no_space (s : string) :
  Str.all (fun c => negb (Char.is_space c)) s = true -> Str.strip s = s.
Proof.
  intros H. unfold Str.strip. rewrite (lstrip_no_space s H).
  rewrite lstrip_no_space; [apply rev_involutive|].
  unfold Str.rev. rewrite all_rev_acc, H. reflexivity.
Qed.

Lemma clean_no_space (s : string) :
  Str.all clean s = true ->
  Str.all (fun c => negb (Char.is_space c)) s = true.
Proof.
  apply all_impl. unfold clean. now intros c [_ H]%andb_true_iff.
Qed.

Lemma remove_underscores_clean (s : string) (prev : ascii) :
  Str.all clean s = true -> Ascii.eqb prev "_" = false ->
  Float.remove_underscores s prev = Some s.
Proof.
  revert prev. induction s as [|x s IH]; intros prev; simpl.
  - intros _ ->. reflexivity.
  - intros [Hx Hs]%andb_true_iff Hp. unfold clean in Hx.
    apply andb_true_iff in Hx as [Hx _]. apply negb_true_iff in Hx.
    rewrite Hx, Hp. simpl. now rewrite (IH x Hs Hx).
Qed.

(** ** Digits *)

Lemma is_digit_cases (c : ascii) : Char.is_digit c = true -> In c digit_chars.
Proof.
  destruct c as [[] [] [] [] [] [] [] []]; intros H;
    vm_compute in H; try discriminate H; simpl; tauto.
Qed.

Ltac digit_cases H :=
  apply is_digit_cases in H; simpl in H;
  repeat (destruct H as [<-|H]); try contradiction.

Lemma digit_clean (c : ascii) : Char.is_digit c = true -> clean c = true.
Proof. intros H. digit_cases H; reflexivity. Qed.

Lemma digit_value_digit (c : ascii) :
  Char.is_digit c = true -> Char.digit_value c = Char.ord c - 48.
Proof. intros H. digit_cases H; reflexivity. Qed.

Lemma digit_range (c : ascii) :
  Char.is_digit c = true -> 0 <= Char.ord c - 48 <= 9.
Proof.
  unfold Char.is_digit. intros [H1 H2]%andb_true_iff.
  apply Z.leb_le in H1, H2. lia.
Qed.

Lemma digit_not_sign (c : ascii) :
  Char.is_digit c = true ->
  Ascii.eqb c "-" = false /\ Ascii.eqb c "+" = false
  /\ Ascii.eqb c "." = false /\ Ascii.eqb c "_" = false
  /\ Char.is_space c = false.
Proof. intros H. digit_cases H; repeat split; reflexivity. Qed.

Lemma all_digits_clean (s : string) :
  all_digits s = true -> Str.all clean s = true.
Proof. apply all_impl. exact digit_clean. Qed.

Lemma value_from_append (a b : string) (acc : Z) :
  value_from (a ++ b) acc = value_from b (value_from a acc).
Proof.
  revert acc. induction a as [|x a IH]; intros acc; simpl; [reflexivity|].
  apply IH.
Qed.

Lemma value_from_bounds (s : string) (acc : Z) :
  all_digits s = true ->
  let p := 10 ^ Z.of_nat (String.length s) in
  acc * p <= value_from s acc < (acc + 1) * p.
Proof.
  revert acc. induction s as [|x s IH]; intros acc H.
  - simpl. lia.
  - simpl in H. apply andb_true_iff in H as [Hx Hs].
    pose proof (digit_range x Hx) as Hd.
    specialize (IH (10 * acc + (Char.ord x - 48)) Hs).
    cbn zeta in *. cbn [String.length value_from].
    rewrite Nat2Z.inj_succ, Z.pow_succ_r by lia.
    set (p := 10 ^ Z.of_nat (String.length s)) in *.
    assert (0 < p) by (apply Z.pow_pos_nonneg; lia).
    nia.
Qed.

Lemma value_bounds (s : string) :
  all_digits s = true -> 0 <= value s < 10 ^ Z.of_nat (String.length s).
Proof.
  intros H. pose proof (value_from_bounds s 0 H) as Hb. cbn zeta in Hb.
  unfold value. lia.
Qed.

(** The digit reader of [float] on a run of digits. *)
Lemma digits_run (ds rest : string) (acc : Z) (n : nat) :
  all_digits ds = true -> stops rest = true ->
  Float.digits (ds ++ rest) acc n
  = (value_from ds acc, (n + String.length ds)%nat, rest).
Proof.
  revert acc n. induction ds as [|x ds IH]; intros acc n Hd Hr.
  - simpl. rewrite Nat.add_0_r. destruct rest as [|c rest]; [reflexivity|].
    simpl in Hr. apply negb_true_iff in Hr. simpl. now rewrite Hr.
  - simpl in Hd. apply andb_true_iff in Hd as [Hx Hs].
    simpl. rewrite Hx, (IH _ _ Hs Hr).
    replace (acc * 10 + (Char.ord x - 48)) with (10 * acc + (Char.ord x - 48)) by ring.
    now rewrite Nat.add_succ_r.
Qed.

(** The digit loop of [int] on a run of decimal digits. *)
Lemma scan_digits_run (ds : string) (seen : bool) (acc : Z) :
  all_digits ds = true -> (seen = true \/ ds <> "") ->
  PyInt.scan_digits 10 ds false seen acc = Some (value_from ds acc, "").
Proof.
  revert seen acc. induction ds as [|x ds IH]; intros seen acc Hd Hs.
  - destruct Hs as [->|Hs]; [reflexivity | contradiction].
  - simpl in Hd. apply andb_true_iff in Hd as [Hx Hds].
    destruct (digit_not_sign x Hx) as (_ & _ & _ & Hu & _).
    pose proof (digit_range x Hx) as Hr.
    cbn [PyInt.scan_digits]. rewrite Hu, (digit_value_digit x Hx).
    destruct (Z.ltb_spec (Char.ord x - 48) 10) as [_|]; [|lia].
    rewrite (IH true _ Hds) by now left.
    now replace (acc * 10 + (Char.ord x - 48)) with (10 * acc + (Char.ord x - 48)) by ring.
Qed.

(** ** [float] of a decimal text *)

Lemma strip_sign_digit_or_dot (s : string) :
  match s with
  | String c _ => Char.is_digit c = true \/ c = "."%char
  | EmptyString => True
  end ->
  PyInt.strip_sign s = (false, s).
Proof.
  destruct s as [|c s]; [reflexivity|]. intros [H| ->]; [|reflexivity].
  destruct (digit_not_sign c H) as (Hm & Hp & _).
  unfold PyInt.strip_sign. now rewrite Hp, Hm.
Qed.

Lemma strtod_decimal (a b : string) :
  all_digits a = true -> all_digits b = true ->
  (a <> "" \/ b <> "") ->
  Float.strtod (a ++ String "." b)
  = Some (Float.decimal_Q (value (a ++ b)) (0 - Z.of_nat (String.length b)), "").
Proof.
  intros Ha Hb Hne. unfold Float.strtod.
  rewrite (digits_run a (String "." b) 0 0 Ha eq_refl).
  cbn [Ascii.eqb Bool.eqb]. cbv iota.
  rewrite <- (append_nil_r b) at 1.
  rewrite (digits_run b "" _ 0 Hb eq_refl).
  destruct (0 + String.length a + (0 + String.length b))%nat eqn:E.
  - destruct a, b; simpl in E; try discriminate E. now destruct Hne.
  - unfold value. rewrite value_from_append. reflexivity.
Qed.

Lemma clean_decimal (a b : string) :
  all_digits a = true -> all_digits b = true ->
  Str.all clean (a ++ String "." b) = true.
Proof.
  intros Ha Hb. rewrite all_append. cbn [Str.all].
  rewrite (all_digits_clean a Ha), (all_digits_clean b Hb). reflexivity.
Qed.

Lemma head_decimal (a b : string) :
  all_digits a = true ->
  match a ++ String "." b with
  | String c _ => Char.is_digit c = true \/ c = "."%char
  | EmptyString => True
  end.
Proof.
  destruct a as [|x a]; simpl; [now right|].
  intros [Hx _]%andb_true_iff. now left.
Qed.

(** [float('a.b')] for digit strings [a] and [b], not both empty. *)
Lemma of_string_decimal (a b : string) :
  all_digits a = true -> all_digits b = true ->
  (a <> "" \/ b <> "") ->
  Float.of_string (a ++ String "." b)
  = Ok (Float.of_Q false
          (Float.decimal_Q (value (a ++ b)) (0 - Z.of_nat (String.length b)))).
Proof.
  intros Ha Hb Hne. unfold Float.of_string.
  pose proof (clean_decimal a b Ha Hb) as Hc.
  rewrite (remove_underscores_clean _ "000" Hc eq_refl).
  rewrite (strip_no_space _ (clean_no_space _ Hc)).
  rewrite (strip_sign_digit_or_dot _ (head_decimal a b Ha)).
  now rewrite (strtod_decimal a b Ha Hb Hne).
Qed.

(** [float('-a.b')] *)
Lemma of_string_minus_decimal (a b : string) :
  all_digits a = true -> all_digits b = true ->
  (a <> "" \/ b <> "") ->
  Float.of_string (String "-" (a ++ String "." b))
  = Ok (Float.of_Q true
          (- Float.decimal_Q (value (a ++ b)) (0 - Z.of_nat (String.length b)))).
Proof.
  intros Ha Hb Hne. unfold Float.of_string.
  assert (Hc : Str.all clean (String "-" (a ++ String "." b)) = true)
    by (cbn [Str.all]; now rewrite (clean_decimal a b Ha Hb)).
  rewrite (remove_underscores_clean _ "000" Hc eq_refl).
  rewrite (strip_no_space _ (clean_no_space _ Hc)).
  cbn [PyInt.strip_sign Ascii.eqb Bool.eqb]. cbv iota.
  now rewrite (strtod_decimal a b Ha Hb Hne).
Qed.

(** ** Printing digits *)

Lemma digit_char_spec (d : Z) :
  0 <= d <= 9 ->
  Char.is_digit (Float.digit_char d) = true
  /\ Char.ord (Float.digit_char d) - 48 = d.
Proof.
  intros H.
  assert (E : d = 0 \/ d = 1 \/ d = 2 \/ d = 3 \/ d = 4 \/ d = 5 \/ d = 6
              \/ d = 7 \/ d = 8 \/ d = 9) by lia.
  repeat (destruct E as [->|E]); try subst d; split; reflexivity.
Qed.

Lemma mod10_range (n : Z) : 0 <= n mod 10 <= 9.
Proof. pose proof (Z.mod_pos_bound n 10). lia. Qed.

Lemma decimal_loop_spec (f : nat) (n : Z) (acc : string) :
  0 <= n < 2 ^ Z.of_nat (S f) ->
  exists ds, Float.decimal_loop (S f) n acc = ds ++ acc
             /\ all_digits ds = true /\ ds <> "" /\ value ds = n.
Proof.
  revert n acc. induction f as [|f IH]; intros n acc Hn.
  - change (2 ^ Z.of_nat 1) with 2 in Hn.
    destruct (digit_char_spec (n mod 10) (mod10_range n)) as [Hd Hv].
    exists (String (Float.digit_char (n mod 10)) "").
    cbn [Float.decimal_loop]. destruct (Z.ltb_spec n 10); [|lia].
    repeat split.
    + unfold all_digits. simpl. now rewrite Hd.
    + discriminate.
    + unfold value. simpl. rewrite Hv. apply Z.mod_small. lia.
  - destruct (digit_char_spec (n mod 10) (mod10_range n)) as [Hd Hv].
    cbn [Float.decimal_loop]. destruct (Z.ltb_spec n 10) as [Hlt|Hge].
    + exists (String (Float.digit_char (n mod 10)) ""). repeat split.
      * unfold all_digits. simpl. now rewrite Hd.
      * discriminate.
      * unfold value. simpl. rewrite Hv. apply Z.mod_small. lia.
    + assert (Hn' : 0 <= n / 10 < 2 ^ Z.of_nat (S f)).
      { split; [apply Z.div_pos; lia|].
        rewrite (Nat2Z.inj_succ (S f)), Z.pow_succ_r in Hn by lia.
        assert (0 < 2 ^ Z.of_nat (S f)) by (apply Z.pow_pos_nonneg; lia).
        apply Z.div_lt_upper_bound; [lia|].
        clear IH. set (P := 2 ^ Z.of_nat (S f)) in *. clearbody P. lia. }
      destruct (IH (n / 10) (String (Float.digit_char (n mod 10)) acc) Hn')
        as (ds & E & Hds & Hne & Hval).
      exists (ds ++ String (Float.digit_char (n mod 10)) "").
      repeat split.
      * cbn [Float.decimal_loop] in E. rewrite append_assoc. exact E.
      * unfold all_digits in *. rewrite all_append, Hds. simpl. now rewrite Hd.
      * destruct ds; [contradiction | discriminate].
      * unfold value in *. rewrite value_from_append, Hval.
        cbn [value_from]. rewrite Hv. pose proof (Z.div_mod n 10). lia.
Qed.

Lemma decimal_spec (n : Z) :
  0 <= n ->
  all_digits (Float.decimal n) = true /\ Float.decimal n <> ""
  /\ value (Float.decimal n) = n.
Proof.
  intros Hn. unfold Float.decimal.
  assert (Hb : 0 <= n < 2 ^ Z.of_nat (S (Z.to_nat (Z.log2 n)))).
  { split; [exact Hn|]. rewrite Nat2Z.inj_succ, Z2Nat.id by apply Z.log2_nonneg.
    destruct (Z.eq_dec n 0) as [->|Hnz]; [reflexivity|].
    apply Z.log2_spec. lia. }
  destruct (decimal_loop_spec _ n "" Hb) as (ds & E & Hds & Hne & Hval).
  rewrite E, append_nil_r. auto.
Qed.

Lemma fixed_spec (w : nat) (n : Z) (acc : string) :
  exists ds, Float.fixed w n acc = ds ++ acc
             /\ all_digits ds = true /\ String.length ds = w
             /\ forall a, value_from ds a
                          = a * 10 ^ Z.of_nat w + n mod 10 ^ Z.of_nat w.
Proof.
  revert n acc. induction w as [|w IH]; intros n acc.
  - exists "". repeat split. intros a. simpl. rewrite Z.mod_1_r. lia.
  - destruct (digit_char_spec (n mod 10) (mod10_range n)) as [Hd Hv].
    destruct (IH (n / 10) (String (Float.digit_char (n mod 10)) acc))
      as (ds & E & Hds & Hlen & Hval).
    exists (ds ++ String (Float.digit_char (n mod 10)) "").
    repeat split.
    + cbn [Float.fixed]. rewrite append_assoc. exact E.
    + unfold all_digits in *. rewrite all_append, Hds. simpl. now rewrite Hd.
    + rewrite length_append, Hlen. simpl. lia.
    + intros a. rewrite value_from_append, Hval. cbn [value_from]. rewrite Hv.
      rewrite Nat2Z.inj_succ, Z.pow_succ_r by lia.
      set (p := 10 ^ Z.of_nat w).
      assert (Hp : 0 < p) by (apply Z.pow_pos_nonneg; lia).
      rewrite (Z.rem_mul_r n 10 p) by lia. ring.
Qed.

Lemma value_repeat_zero (k : nat) :
  all_digits (Str.repeat "0" k) = true /\ value (Str.repeat "0" k) = 0.
Proof.
  induction k as [|k [IH1 IH2]]; [split; reflexivity|].
  split; [exact IH1 | exact IH2].
Qed.

End StrFacts.

(** * Formatting a double and reading it back *)

Module FormatFacts.

Import Float FloatKind Decimal FloatFacts StrFacts.

Lemma rne_nonneg (q : Q) : (0 <= q)%Q -> 0 <= rne q.
Proof.
  intros Hq. pose proof (rne_bound q) as [Hb _].
  assert (-1 < rne q); [|lia]. rewrite Zlt_Qlt.
  change (inject_Z (-1)) with (-1)%Q. lra.
Qed.

(** The text of [format(x, '.Nf')] without its sign: digits, a point and
    [N] digits, which together write the rounded value [n]. *)
Lemma format_digits (p : nat) (n : Z) :
  0 <= n ->
  let P := 10 ^ Z.of_nat (S p) in
  exists a b,
    decimal (n / P) = a /\ fixed (S p) (n mod P) "" = b
    /\ all_digits a = true /\ all_digits b = true /\ a <> ""
    /\ String.length b = S p /\ value (a ++ b) = n.
Proof.
  intros Hn P.
  assert (HP : 0 < P) by (apply Z.pow_pos_nonneg; lia).
  assert (Hq : 0 <= n / P) by (apply Z.div_pos; lia).
  destruct (decimal_spec (n / P) Hq) as (Ha & Hne & Hva).
  destruct (fixed_spec (S p) (n mod P) "") as (b & Eb & Hb & Hlen & Hvb).
  rewrite append_nil_r in Eb.
  exists (decimal (n / P)), b. repeat split; try assumption.
  unfold value in *. rewrite value_from_append, Hva, Hvb. fold P.
  rewrite Z.mod_mod by lia. pose proof (Z.div_mod n P). lia.
Qed.

Lemma decimal_Q_places (n : Z) (p : nat) :
  decimal_Q n (0 - Z.of_nat (S p)) = n # Z.to_pos (10 ^ Z.of_nat (S p)).
Proof.
  unfold decimal_Q.
  destruct (Z.leb_spec 0 (0 - Z.of_nat (S p))) as [H|_]; [lia|].
  now replace (- (0 - Z.of_nat (S p))) with (Z.of_nat (S p)) by lia.
Qed.

Lemma of_string_format_f (p : nat) (x : float) :
  plain x ->
  let P := 10 ^ Z.of_nat (S p) in
  let n := rne (Qabs (to_Q x) * inject_Z P) in
  of_string (format_f (S p) x)
  = Ok (of_Q (is_neg x)
          (if is_neg x then - (n # Z.to_pos P) else n # Z.to_pos P)).
Proof.
  intros Hx P n.
  assert (HP : 0 < P) by (apply Z.pow_pos_nonneg; lia).
  assert (Hn : 0 <= n).
  { apply rne_nonneg. apply Qmult_le_0_compat; [apply Qabs_nonneg|].
    change 0%Q with (inject_Z 0). rewrite <- Zle_Qle. lia. }
  destruct (format_digits p n Hn) as (a & b & Ea & Eb & Ha & Hb & Hne & Hlen & Hv).
  fold P in Ea, Eb.
  assert (E : format_f (S p) x = sign_string (is_neg x) ++ a ++ String "." b).
  { destruct x; cbn [plain] in Hx; try contradiction;
      unfold format_f; cbv beta iota zeta; fold P; fold n; now rewrite Ea, Eb. }
  rewrite E. destruct (is_neg x); cbn [sign_string String.append].
  - rewrite (of_string_minus_decimal a b Ha Hb (or_introl Hne)).
    now rewrite Hv, Hlen, decimal_Q_places.
  - rewrite (of_string_decimal a b Ha Hb (or_introl Hne)).
    now rewrite Hv, Hlen, decimal_Q_places.
Qed.

Lemma of_string_zero_pad_format_f (w p : nat) (x : float) :
  plain x -> is_neg x = false ->
  let P := 10 ^ Z.of_nat (S p) in
  let n := rne (Qabs (to_Q x) * inject_Z P) in
  of_string (zero_pad w (format_f (S p) x))
  = Ok (of_Q false (n # Z.to_pos P)).
Proof.
  intros Hx Hs P n.
  assert (HP : 0 < P) by (apply Z.pow_pos_nonneg; lia).
  assert (Hn : 0 <= n).
  { apply rne_nonneg. apply Qmult_le_0_compat; [apply Qabs_nonneg|].
    change 0%Q with (inject_Z 0). rewrite <- Zle_Qle. lia. }
  destruct (format_digits p n Hn) as (a & b & Ea & Eb & Ha & Hb & Hne & Hlen & Hv).
  fold P in Ea, Eb.
  assert (E : format_f (S p) x = a ++ String "." b).
  { destruct x; cbn [plain] in Hx; try contradiction;
      unfold format_f; cbv beta iota zeta; fold P; fold n; rewrite Ea, Eb;
      cbn [is_neg] in Hs; rewrite ?Hs; reflexivity. }
  rewrite E. set (k := (w - String.length (a ++ String "." b))%nat).
  destruct (value_repeat_zero k) as [Hz Hvz].
  assert (Ez : zero_pad w (a ++ String "." b)
               = (Str.repeat "0" k ++ a) ++ String "." b).
  { unfold zero_pad. fold k. destruct a as [|c a]; [contradiction|].
    cbn [String.append]. cbn [all_digits Str.all] in Ha.
    unfold all_digits in Ha. cbn [Str.all] in Ha.
    apply andb_true_iff in Ha as [Hc _].
    destruct (digit_not_sign c Hc) as (Hm & Hp & _).
    rewrite Hm, Hp. cbn [orb]. now rewrite append_assoc. }
  rewrite Ez.
  assert (Hza : all_digits (Str.repeat "0" k ++ a) = true)
    by (unfold all_digits in *; now rewrite all_append, Hz, Ha).
  rewrite (of_string_decimal _ b Hza Hb).
  - rewrite Hlen, decimal_Q_places. do 2 f_equal. f_equal.
    unfold value in *. rewrite append_assoc, value_from_append, Hvz. exact Hv.
  - right. intros ->. discriminate Hlen.
Qed.

End FormatFacts.

(** * Doubles of moderate magnitude *)

(** The unit roundoff, [2^-53]. *)
Notation "'eps53'" := (1 # 9007199254740992)%Q.

Module Numeric.

Import Float FloatKind FloatFacts.

Local Open Scope Q_scope.


Lemma pow2_m53 : pow2 (-53) == eps53.
Proof. reflexivity. Qed.

Lemma mid_range (q : Q) :
  (1 # 1000000000) <= q -> q <= 1000000000000 ->
  pow2 (-1022) <= q /\ q < pow2 1023.
Proof.
  intros H1 H2. split.
  - apply Qle_trans with (pow2 (-30)); [apply pow2_le; lia|].
    apply Qle_trans with (1 # 1000000000); [|exact H1].
    unfold Qle. vm_compute. discriminate.
  - apply Qle_lt_trans with 1000000000000; [exact H2|].
    apply Qlt_le_trans with (pow2 40); [reflexivity | apply pow2_le; lia].
Qed.

Lemma of_Q_pos_mid (q : Q) :
  (1 # 1000000000) <= q -> q <= 1000000000000 ->
  plain (of_Q false q) /\ is_neg (of_Q false q) = false
  /\ q * (1 - eps53) <= to_Q (of_Q false q) <= q * (1 + eps53).
Proof.
  intros H1 H2. destruct (mid_range q H1 H2) as [Hlo Hhi].
  assert (Hq : 0 < q) by lra.
  assert (Ha : Qabs q == q) by (apply Qabs_pos; lra).
  destruct (of_Q_spec q) as (Hp & He & Hs & _).
  - now rewrite Ha.
  - right. now rewrite Ha.
  - split; [exact Hp|]. split; [apply Hs; lra|].
    rewrite Ha, pow2_m53 in He. apply Qabs_Qle_condition in He. lra.
Qed.

Lemma of_Q_neg_mid (q : Q) :
  q <= - (1 # 1000000000) -> - (1000000000000) <= q ->
  plain (of_Q false q) /\ is_neg (of_Q false q) = true
  /\ q * (1 + eps53) <= to_Q (of_Q false q) <= q * (1 - eps53).
Proof.
  intros H1 H2.
  assert (H1' : (1 # 1000000000) <= - q) by lra.
  assert (H2' : - q <= 1000000000000) by lra.
  destruct (mid_range (- q) H1' H2') as [Hlo Hhi].
  assert (Ha : Qabs q == - q) by (apply Qabs_neg; lra).
  destruct (of_Q_spec q) as (Hp & He & _ & Hs).
  - now rewrite Ha.
  - right. now rewrite Ha.
  - split; [exact Hp|]. split; [apply Hs; lra|].
    rewrite Ha, pow2_m53 in He. apply Qabs_Qle_condition in He. lra.
Qed.

Lemma of_Q_zero_mid (q : Q) :
  q == 0 ->
  plain (of_Q false q) /\ is_neg (of_Q false q) = false
  /\ to_Q (of_Q false q) == 0.
Proof.
  intros H. rewrite (of_Q_zero false q H). repeat split.
Qed.

Lemma of_int_plain (z : Z) :
  plain (of_Q false (inject_Z z)) -> of_int z = Ok (of_Q false (inject_Z z)).
Proof.
  unfold of_int. destruct (of_Q false (inject_Z z)); cbn [plain];
    intros H; try contradiction; reflexivity.
Qed.

Lemma inject_Z_ge1 (z : Z) : (1 <= z)%Z -> 1 <= inject_Z z.
Proof. intros H. change 1 with (inject_Z 1). now rewrite <- Zle_Qle. Qed.

Lemma inject_Z_le (z b : Z) : (z <= b)%Z -> inject_Z z <= inject_Z b.
Proof. intros H. now rewrite <- Zle_Qle. Qed.

(** [float(z)] of a small integer. *)
Lemma of_int_small (z : Z) :
  (-1000 <= z <= 1000)%Z ->
  of_int z = Ok (of_Q false (inject_Z z))
  /\ plain (of_Q false (inject_Z z))
  /\ (let a := to_Q (of_Q false (inject_Z z)) in
      let d := inject_Z z in
      (0 <= d -> d * (1 - eps53) <= a <= d * (1 + eps53))
      /\ (d <= 0 -> d * (1 + eps53) <= a <= d * (1 - eps53))).
Proof.
  intros Hz.
  pose proof (inject_Z_le z 1000 ltac:(lia)) as Hup.
  pose proof (inject_Z_le (-1000) z ltac:(lia)) as Hdn.
  change (inject_Z 1000) with 1000 in Hup.
  change (inject_Z (-1000)) with (-1000) in Hdn.
  assert (Hc : (z = 0 \/ 1 <= z \/ z <= -1)%Z) by lia.
  destruct Hc as [->|[Hc|Hc]].
  - split; [reflexivity|]. split; [reflexivity|]. cbn zeta.
    change (to_Q (of_Q false (inject_Z 0))) with 0. change (inject_Z 0) with 0.
    split; intros _; lra.
  - pose proof (inject_Z_ge1 z Hc) as H1.
    destruct (of_Q_pos_mid (inject_Z z)) as (Hp & _ & He); [lra | lra |].
    split; [now apply of_int_plain|]. split; [exact Hp|]. cbn zeta.
    split; intros; lra.
  - pose proof (inject_Z_le z (-1) Hc) as H1.
    change (inject_Z (-1)) with (-1) in H1.
    destruct (of_Q_neg_mid (inject_Z z)) as (Hp & _ & He); [lra | lra |].
    split; [now apply of_int_plain|]. split; [exact Hp|]. cbn zeta.
    split; intros; lra.
Qed.

End Numeric.

(** * The coordinate pattern and [int] *)

Module CoordFacts.

Import Decimal StrFacts.

Lemma digits_then_append (n : nat) (ds rest : string) :
  String.length ds = n -> all_digits ds = true ->
  Re.digits_then n (ds ++ rest) = Some (ds, rest).
Proof.
  intros <- Hd. unfold Re.digits_then.
  rewrite take_append, drop_append, Nat.eqb_refl.
  unfold all_digits in Hd. now rewrite Hd.
Qed.



Lemma coordinate_body_shape (n : nat) (sign ds ms fs rest : string) :
  String.length ds = n -> String.length ms = 2%nat ->
  String.length fs = 4%nat ->
  all_digits ds = true -> all_digits ms = true -> all_digits fs = true ->
  Re.coordinate_body n sign (ds ++ ms ++ String "." (fs ++ rest))
  = Some (sign ++ ds, ms ++ String "." fs).
Proof.
  intros Ln Lm Lf Hd Hm Hf. unfold Re.coordinate_body.
  rewrite (digits_then_append n ds _ Ln Hd).
  rewrite (digits_then_append 2 ms _ Lm Hm).
  change (Re.is_dot_char ".") with true. cbv iota.
  now rewrite (digits_then_append 4 fs _ Lf Hf).
Qed.


(** The pattern matches a text of the shape, and splits it. *)
Lemma coordinate_shape (n : nat) (neg : bool) (ds ms fs rest : string) :
  String.length ds = n -> String.length ms = 2%nat ->
  String.length fs = 4%nat ->
  all_digits ds = true -> all_digits ms = true -> all_digits fs = true ->
  Re.coordinate n
    (Float.sign_string neg ++ ds ++ ms ++ String "." (fs ++ rest))
  = Some (Float.sign_string neg ++ ds, ms ++ String "." fs).
Proof.
  intros Ln Lm Lf Hd Hm Hf.
  pose proof (coordinate_body_shape n) as Hb.
  destruct neg; cbn [Float.sign_string String.append].
  - unfold Re.coordinate. change (Ascii.eqb "-" "-") with true. cbv iota.
    now rewrite (Hb "-" ds ms fs rest).
  - specialize (Hb "" ds ms fs rest Ln Lm Lf Hd Hm Hf).
    cbn [String.append] in Hb. unfold Re.coordinate.
    destruct (ds ++ ms ++ String "." (fs ++ rest)) as [|c t] eqn:E.
    + exact Hb.
    + assert (Hc : Char.is_digit c = true).
      { destruct ds as [|x ds]; cbn [String.append] in E.
        - destruct ms as [|y ms]; [discriminate Lm|].
          cbn [String.append] in E. injection E as <- _.
          unfold all_digits in Hm. cbn [Str.all] in Hm.
          now apply andb_true_iff in Hm as [Hy _].
        - injection E as <- _. unfold all_digits in Hd. cbn [Str.all] in Hd.
          now apply andb_true_iff in Hd as [Hx _]. }
      destruct (digit_not_sign c Hc) as (Hm' & _). now rewrite Hm'.
Qed.


(** [int('ds')] and [int('-ds')] for a digit string. *)
Lemma int10_digits (neg : bool) (ds : string) :
  all_digits ds = true -> ds <> "" ->
  PyInt.int10 (Float.sign_string neg ++ ds)
  = Ok (if neg then - value ds else value ds).
Proof.
  intros Hd Hne. unfold PyInt.int10, PyInt.parse.
  destruct ds as [|c ds]; [contradiction|].
  pose proof Hd as Hd'. unfold all_digits in Hd'. cbn [Str.all] in Hd'.
  apply andb_true_iff in Hd' as [Hc Hds].
  destruct (digit_not_sign c Hc) as (Hm & Hp & _ & Hu & Hsp).
  assert (Hpre : PyInt.strip_prefix 10 (String c ds) = String c ds)
    by (destruct ds; reflexivity).
  assert (Hscan : PyInt.scan_digits 10 (String c ds) false false 0
                  = Some (value (String c ds), ""))
    by (apply scan_digits_run; [exact Hd | right; discriminate]).
  destruct neg; cbn [Float.sign_string String.append].
  - cbn [Str.lstrip]. change (Char.is_space "-") with false. cbv iota.
    cbn [PyInt.strip_sign]. change (Ascii.eqb "-" "+") with false.
    change (Ascii.eqb "-" "-") with true. cbv iota.
    rewrite Hpre, Hu, Hscan. reflexivity.
  - cbn [Str.lstrip]. rewrite Hsp. cbn [PyInt.strip_sign]. rewrite Hp, Hm.
    rewrite Hpre, Hu, Hscan. reflexivity.
Qed.

End CoordFacts.

(** * Degrees and minutes *)

Module DegreesFacts.

Import Float FloatKind FloatFacts FormatFacts Numeric.

Local Open Scope Q_scope.

Lemma of_int_60 : of_int 60 = Ok (Finite false 8444249301319680 (-47)).
Proof. vm_compute. reflexivity. Qed.

Lemma to_Q_60 : to_Q (Finite false 8444249301319680 (-47)) == 60.
Proof. reflexivity. Qed.

Lemma Qmake_inject (a : Z) (b : positive) :
  a # b == inject_Z a * (1 # b).
Proof. unfold Qeq. simpl. lia. Qed.

Lemma inject_Z_lt_inv (x y : Z) : inject_Z x < inject_Z y -> (x < y)%Z.
Proof. intros H. now rewrite Zlt_Qlt. Qed.

(** The minutes, read from their text. *)
Lemma minutes_spec (k : Z) :
  (0 <= k <= 999999)%Z ->
  let K := inject_Z k * (1 # 10000) in
  let x := of_Q false (k # 10000) in
  plain x /\ is_neg x = false
  /\ K * (1 - eps53) <= to_Q x <= K * (1 + eps53).
Proof.
  intros Hk K x.
  assert (HK : k # 10000 == K) by apply Qmake_inject.
  pose proof (inject_Z_le 0 k ltac:(lia)) as H0.
  pose proof (inject_Z_le k 999999 ltac:(lia)) as H1.
  change (inject_Z 0) with 0 in H0. change (inject_Z 999999) with 999999 in H1.
  assert (Hc : (k = 0 \/ 1 <= k)%Z) by lia. destruct Hc as [->|Hc].
  - split; [reflexivity|]. split; [reflexivity|].
    change (to_Q x) with 0. unfold K. change (inject_Z 0) with 0. lra.
  - pose proof (inject_Z_ge1 k Hc) as H2.
    destruct (of_Q_pos_mid (k # 10000)) as (Hp & Hs & He).
    + rewrite HK. unfold K. lra.
    + rewrite HK. unfold K. lra.
    + split; [exact Hp|]. split; [exact Hs|]. destruct He as [He1 He2]. split.
      * apply Qle_trans with ((k # 10000) * (1 - eps53)); [|exact He1].
        rewrite HK. apply Qle_refl.
      * apply Qle_trans with ((k # 10000) * (1 + eps53)); [exact He2|].
        rewrite HK. apply Qle_refl.
Qed.

(** The minutes divided by 60. *)
Lemma quotient_spec (x : float) (K : Q) :
  plain x -> is_neg x = false ->
  0 <= K -> K <= 100 -> (K == 0 \/ (1 # 10000) <= K) ->
  K * (1 - eps53) <= to_Q x <= K * (1 + eps53) ->
  let q := of_Q false (to_Q x / to_Q (Finite false 8444249301319680 (-47))) in
  truediv x (Finite false 8444249301319680 (-47)) = Ok q
  /\ plain q
  /\ K * (1 # 60) - 4 * eps53 <= to_Q q <= K * (1 # 60) + 4 * eps53.
Proof.
  intros Hp Hs HK0 HK1 HKc Hx q.
  split; [now apply truediv_plain|].
  assert (Eq : to_Q x / to_Q (Finite false 8444249301319680 (-47))
               == to_Q x * (1 # 60)) by (rewrite to_Q_60; reflexivity).
  unfold q. rewrite (of_Q_proper false _ _ Eq).
  set (a := to_Q x) in *.
  destruct HKc as [HKz|HKp].
  - assert (Ea : a * (1 # 60) == 0) by lra.
    rewrite (of_Q_zero false _ Ea). split; [reflexivity|].
    change (to_Q (Zero false)) with 0. lra.
  - destruct (of_Q_pos_mid (a * (1 # 60))) as (Hq & _ & He); [lra | lra |].
    split; [exact Hq|]. lra.
Qed.

(** Rounding to an integer, between integers. *)
Lemma third_snap (n t : Z) :
  - (2 # 1) < 3 * inject_Z n - 5 * inject_Z t ->
  3 * inject_Z n - 5 * inject_Z t < 2 ->
  (-1 <= 3 * n - 5 * t <= 1)%Z.
Proof.
  intros H1 H2.
  assert (E : inject_Z (3 * n - 5 * t) == 3 * inject_Z n - 5 * inject_Z t).
  { unfold Z.sub. rewrite inject_Z_plus, inject_Z_opp, !inject_Z_mult.
    reflexivity. }
  assert (-2 < 3 * n - 5 * t)%Z
    by (apply inject_Z_lt_inv; rewrite E; exact H1).
  assert (3 * n - 5 * t < 2)%Z
    by (apply inject_Z_lt_inv; rewrite E; exact H2).
  lia.
Qed.

Lemma exact_degrees (deg k : Z) :
  Shape.decimal_degrees deg k
  == inject_Z (600000 * deg + k) * (1 # 600000).
Proof.
  unfold Shape.decimal_degrees.
  rewrite (Qmake_inject k 10000), inject_Z_plus, inject_Z_mult.
  change (inject_Z 600000) with 600000. field.
Qed.

Lemma unique_rounding (e : Q) (N N' : Z) :
  Qabs ((N # 1000000) - e) <= 1 # 3000000 ->
  Qabs ((N' # 1000000) - e) <= 1 # 2000000 ->
  N' = N.
Proof.
  intros H H'. apply Qabs_Qle_condition in H, H'.
  rewrite (Qmake_inject N) in H. rewrite (Qmake_inject N') in H'.
  assert (N' < N + 1)%Z.
  { apply inject_Z_lt_inv. rewrite inject_Z_plus.
    change (inject_Z 1) with 1. lra. }
  assert (N < N' + 1)%Z.
  { apply inject_Z_lt_inv. rewrite inject_Z_plus.
    change (inject_Z 1) with 1. lra. }
  lia.
Qed.

(** From the parsed degrees and minutes to the result: the result is the
    double nearest to [N / 10^6], [N / 10^6] being within a third of
    [10^-6] of the exact [degrees + minutes / 60]. *)
Lemma degrees_pipeline (deg k : Z) :
  (-999 <= deg <= 999)%Z -> (0 <= k <= 999999)%Z ->
  exists N : Z,
    (sixty <- of_int 60 ;;
     q <- truediv (of_Q false (k # 10000)) sixty ;;
     d <- of_int deg ;;
     of_string (format_f 6 (add d q))) = Ok (of_Q false (N # 1000000))
    /\ Qabs ((N # 1000000) - Shape.decimal_degrees deg k) <= 1 # 3000000.
Proof.
  intros Hd Hk. set (t := (600000 * deg + k)%Z).
  destruct (Z.eq_dec t 0) as [Et|Et].
  - assert (Hc : ((deg = 0 /\ k = 0) \/ (deg = -1 /\ k = 600000))%Z)
      by (unfold t in Et; lia).
    destruct Hc as [[-> ->]|[-> ->]]; exists 0%Z;
      (split; [vm_compute; reflexivity | unfold Qle; vm_compute; discriminate]).
  - rewrite of_int_60. cbn [bind].
    destruct (minutes_spec k Hk) as (Hxp & Hxs & Hxe). cbn zeta in Hxe.
    set (x := of_Q false (k # 10000)) in *.
    set (K := inject_Z k * (1 # 10000)) in *.
    pose proof (inject_Z_le 0 k ltac:(lia)) as Hk0.
    pose proof (inject_Z_le k 999999 ltac:(lia)) as Hk1.
    change (inject_Z 0) with 0 in Hk0.
    change (inject_Z 999999) with 999999 in Hk1.
    assert (HKc : K == 0 \/ (1 # 10000) <= K).
    { assert (Hc : (k = 0 \/ 1 <= k)%Z) by lia. destruct Hc as [Hc|Hc].
      - left. unfold K. rewrite Hc. reflexivity.
      - right. pose proof (inject_Z_ge1 k Hc). unfold K. lra. }
    destruct (quotient_spec x K Hxp Hxs) as (Eq & Hqp & Hqe);
      [unfold K; lra | unfold K; lra | exact HKc | exact Hxe |].
    cbn zeta in Hqe. rewrite Eq. cbn [bind].
    set (q := of_Q false (to_Q x / to_Q (Finite false 8444249301319680 (-47)))) in *.
    destruct (of_int_small deg ltac:(lia)) as (Ei & Hdp & Hde).
    cbn zeta in Hde. rewrite Ei. cbn [bind].
    set (d := of_Q false (inject_Z deg)) in *.
    rewrite (add_plain d q Hdp Hqp).
    set (a3 := to_Q d) in *. set (a2 := to_Q q) in *.
    pose proof (inject_Z_le deg 999 ltac:(lia)) as Hd1.
    pose proof (inject_Z_le (-999) deg ltac:(lia)) as Hd0.
    change (inject_Z 999) with 999 in Hd1.
    change (inject_Z (-999)) with (-999) in Hd0.
    set (D := inject_Z deg) in *.
    assert (Hex : Shape.decimal_degrees deg k == inject_Z t * (1 # 600000))
      by apply exact_degrees.
    assert (Ht : inject_Z t == 600000 * D + inject_Z k).
    { unfold t. rewrite inject_Z_plus, inject_Z_mult. reflexivity. }
    set (ex := Shape.decimal_degrees deg k) in *.
    set (T := inject_Z t) in *. set (Ik := inject_Z k) in *.
    assert (Ha3 : D - 1000 * eps53 <= a3 <= D + 1000 * eps53).
    { destruct Hde as [Hpos Hneg].
      destruct (Qlt_le_dec D 0) as [HD|HD].
      - specialize (Hneg ltac:(lra)). lra.
      - specialize (Hpos HD). lra. }
    assert (Hs : ex - 1004 * eps53 <= a3 + a2 <= ex + 1004 * eps53)
      by (unfold K in Hqe; lra).
    assert (Hc : (1 <= t \/ t <= -1)%Z) by lia.
    destruct Hc as [Hc|Hc].
    + pose proof (inject_Z_ge1 t Hc) as HT. fold T in HT.
      destruct (of_Q_pos_mid (a3 + a2)) as (Hrp & Hrs & Hre); [lra | lra |].
      set (r := of_Q false (a3 + a2)) in *.
      pose proof (of_string_format_f 5 r Hrp) as Ef. cbn zeta in Ef.
      rewrite Ef, Hrs.
      change (Z.to_pos (10 ^ Z.of_nat 6)) with 1000000%positive.
      change (inject_Z (10 ^ Z.of_nat 6)) with 1000000.
      set (n := rne (Qabs (to_Q r) * 1000000)).
      exists n. split; [reflexivity|].
      pose proof (rne_bound (Qabs (to_Q r) * 1000000)) as Hn. fold n in Hn.
      assert (Ha : Qabs (to_Q r) == to_Q r) by (apply Qabs_pos; lra).
      rewrite Ha in Hn. set (a4 := to_Q r) in *.
      destruct (third_snap n t) as [Hz1 Hz2]; [fold T; lra | fold T; lra |].
      apply Qabs_Qle_condition. rewrite (Qmake_inject n).
      apply inject_Z_le in Hz1, Hz2.
      unfold Z.sub in Hz1, Hz2.
      rewrite inject_Z_plus, inject_Z_opp, !inject_Z_mult in Hz1, Hz2.
      change (inject_Z 3) with 3 in Hz1, Hz2.
      change (inject_Z 5) with 5 in Hz1, Hz2.
      change (inject_Z 1) with 1 in Hz2. change (inject_Z (-1)) with (-1) in Hz1.
      fold T in Hz1, Hz2. lra.
    + pose proof (inject_Z_le t (-1) Hc) as HT. fold T in HT.
      change (inject_Z (-1)) with (-1) in HT.
      destruct (of_Q_neg_mid (a3 + a2)) as (Hrp & Hrs & Hre); [lra | lra |].
      set (r := of_Q false (a3 + a2)) in *.
      pose proof (of_string_format_f 5 r Hrp) as Ef. cbn zeta in Ef.
      rewrite Ef, Hrs.
      change (Z.to_pos (10 ^ Z.of_nat 6)) with 1000000%positive.
      change (inject_Z (10 ^ Z.of_nat 6)) with 1000000.
      set (n := rne (Qabs (to_Q r) * 1000000)).
      pose proof (rne_bound (Qabs (to_Q r) * 1000000)) as Hn. fold n in Hn.
      assert (Ha : Qabs (to_Q r) == - to_Q r) by (apply Qabs_neg; lra).
      rewrite Ha in Hn. set (a4 := to_Q r) in *.
      destruct (third_snap (- n) t) as [Hz1 Hz2];
        [rewrite inject_Z_opp; fold T; lra | rewrite inject_Z_opp; fold T; lra |].
      exists (- n)%Z. split.
      * change (- (n # 1000000)) with (- n # 1000000).
        f_equal. apply of_Q_sign_irrelevant.
        intros E. unfold Qeq in E. cbn in E.
        assert (Hn1 : (0 < n)%Z); [|lia].
        apply inject_Z_lt_inv. change (inject_Z 0) with 0. lra.
      * apply Qabs_Qle_condition. rewrite (Qmake_inject (- n)).
        apply inject_Z_le in Hz1, Hz2.
        unfold Z.sub in Hz1, Hz2.
        rewrite inject_Z_plus, inject_Z_opp, !inject_Z_mult in Hz1, Hz2.
        change (inject_Z 3) with 3 in Hz1, Hz2.
        change (inject_Z 5) with 5 in Hz1, Hz2.
        change (inject_Z 1) with 1 in Hz2.
        change (inject_Z (-1)) with (-1) in Hz1.
        fold T in Hz1, Hz2. lra.
Qed.

End DegreesFacts.

(** * Coordinates *)

Module CoordinateTheorems.

Import Float Decimal FloatFacts StrFacts FormatFacts CoordFacts DegreesFacts.

Lemma shape_ranges (n : nat) (neg : bool) (ds ms fs : string) :
  (n = 2 \/ n = 3)%nat ->
  String.length ds = n -> String.length ms = 2%nat ->
  String.length fs = 4%nat ->
  all_digits ds = true -> all_digits ms = true -> all_digits fs = true ->
  -999 <= (if neg then - value ds else value ds) <= 999
  /\ 0 <= value (ms ++ fs) <= 999999.
Proof.
  intros Hn Ln Lm Lf Hd Hm Hf.
  pose proof (value_bounds ds Hd) as Bd. rewrite Ln in Bd.
  assert (Hmf : all_digits (ms ++ fs) = true)
    by (unfold all_digits in *; now rewrite all_append, Hm, Hf).
  pose proof (value_bounds (ms ++ fs) Hmf) as Bk.
  rewrite length_append, Lm, Lf in Bk.
  change (10 ^ Z.of_nat (2 + 4)) with 1000000 in Bk.
  split; [|lia].
  destruct Hn as [-> | ->].
  - change (10 ^ Z.of_nat 2) with 100 in Bd. destruct neg; lia.
  - change (10 ^ Z.of_nat 3) with 1000 in Bd. destruct neg; lia.
Qed.

(** The conversion on a text of the shape, in terms of the parsed degrees
    and minutes. *)
Lemma decimal_degrees_shape (n : nat) (neg : bool) (ds ms fs : string) :
  (n = 2 \/ n = 3)%nat ->
  String.length ds = n -> String.length ms = 2%nat ->
  String.length fs = 4%nat ->
  all_digits ds = true -> all_digits ms = true -> all_digits fs = true ->
  H02.decimal_degrees n (sign_string neg ++ ds ++ ms ++ String "." fs)
  = (sixty <- of_int 60 ;;
     q <- truediv (of_Q false (value (ms ++ fs) # 10000)) sixty ;;
     d <- of_int (if neg then - value ds else value ds) ;;
     of_string (format_f 6 (add d q))).
Proof.
  intros Hn Ln Lm Lf Hd Hm Hf. unfold H02.decimal_degrees.
  pose proof (coordinate_shape n neg ds ms fs "" Ln Lm Lf Hd Hm Hf) as Em.
  rewrite append_nil_r in Em. rewrite Em.
  cbn [Re.group bind].
  rewrite (int10_digits neg ds Hd)
    by (intros ->; destruct Hn as [-> | ->]; discriminate Ln).
  cbn [Re.group bind].
  rewrite (of_string_decimal ms fs Hm Hf)
    by (left; intros ->; discriminate Lm).
  cbn [bind]. rewrite Lf.
  rewrite (decimal_Q_places (value (ms ++ fs)) 3).
  reflexivity.
Qed.

End CoordinateTheorems.

(** C2: for a text of the shape -- an optional minus sign, [n] degree
    digits ([n] is 2 for a latitude and 3 for a longitude), two minute
    digits, a point and four digits -- the conversion returns the double
    nearest to [N / 10^6], where [N / 10^6] is [degrees + minutes / 60]
    rounded to 6 decimal places: it lies within half of [10^-6] of the
    exact sum, and no other multiple of [10^-6] does. [_latitude] and
    [_longitude] return this value and leave the object as it is. In
    particular, "4413.5467" gives 44.225778 and "12754.4324" gives
    127.907207. *)
Theorem coordinate_conversion :
  (forall (n : nat) (neg : bool) (ds ms fs : string),
      (n = 2 \/ n = 3)%nat ->
      String.length ds = n -> String.length ms = 2%nat ->
      String.length fs = 4%nat ->
      Decimal.all_digits ds = true -> Decimal.all_digits ms = true ->
      Decimal.all_digits fs = true ->
      let raw := Float.sign_string neg ++ ds ++ ms ++ String "." fs in
      let degrees := if neg then - Decimal.value ds else Decimal.value ds in
      let exact := Shape.decimal_degrees degrees (Decimal.value (ms ++ fs)) in
      exists N : Z,
        H02.decimal_degrees n raw = Ok (Float.of_Q false (N # 1000000))
        /\ (Qabs ((N # 1000000) - exact) <= 1 # 2000000)%Q
        /\ (forall N' : Z,
               (Qabs ((N' # 1000000) - exact) <= 1 # 2000000)%Q -> N' = N)
        /\ (forall self : H02.t,
               n = 2%nat -> H02.regex_match self 6%nat = raw ->
               H02._latitude self
               = (Ok (Float.of_Q false (N # 1000000)), self))
        /\ (forall self : H02.t,
               n = 3%nat -> H02.regex_match self 8%nat = raw ->
               H02._longitude self
               = (Ok (Float.of_Q false (N # 1000000)), self)))
  /\ H02.decimal_degrees 2 "4413.5467"
     = Ok (Float.of_Q false (44225778 # 1000000))
  /\ H02.decimal_degrees 3 "12754.4324"
     = Ok (Float.of_Q false (127907207 # 1000000)).
Proof.
  split; [|split; vm_compute; reflexivity].
  intros n neg ds ms fs Hn Ln Lm Lf Hd Hm Hf raw degrees exact.
  destruct (CoordinateTheorems.shape_ranges n neg ds ms fs Hn Ln Lm Lf Hd Hm Hf)
    as [Rd Rk].
  destruct (DegreesFacts.degrees_pipeline degrees (Decimal.value (ms ++ fs)) Rd Rk)
    as (N & EN & HN).
  fold exact in HN.
  assert (E : H02.decimal_degrees n raw = Ok (Float.of_Q false (N # 1000000))).
  { unfold raw.
    rewrite (CoordinateTheorems.decimal_degrees_shape n neg ds ms fs Hn Ln Lm Lf Hd Hm Hf).
    exact EN. }
  exists N. split; [exact E|]. split.
  - apply Qle_trans with (1 # 3000000)%Q; [exact HN | discriminate].
  - split; [intros N' H'; now apply (DegreesFacts.unique_rounding exact)|].
    split; intros self -> Hraw.
    + unfold H02._latitude. now rewrite Hraw, E.
    + unfold H02._longitude. now rewrite Hraw, E.
Qed.

Lemma coordinate_conversion_witness :
  exists N : Z,
    H02.decimal_degrees 2 "-0159.9999" = Ok (Float.of_Q false (N # 1000000))
    /\ (Qabs ((N # 1000000) - Shape.decimal_degrees (-1) 599999)
        <= 1 # 2000000)%Q.
Proof.
  destruct (proj1 coordinate_conversion 2%nat true "01" "59" "9999")
    as (N & E & H & _); try reflexivity; [now left|].
  exists N. split; [exact E | exact H].
Defined.

(** * Speed *)

Module SpeedFacts.

Import Float FloatKind Decimal FloatFacts StrFacts FormatFacts Numeric DegreesFacts.

Local Open Scope Q_scope.

Lemma knot_value : H02.knot = Finite false 8340666509890159 (-52).
Proof. vm_compute. reflexivity. Qed.

Lemma to_Q_knot : to_Q H02.knot == 8340666509890159 # 4503599627370496.
Proof. reflexivity. Qed.

Lemma quarter_snap (n k : Z) :
  - (126 # 1) < 250 * inject_Z n - 463 * inject_Z k ->
  250 * inject_Z n - 463 * inject_Z k < 126 ->
  - (125 # 1) <= 250 * inject_Z n - 463 * inject_Z k <= 125.
Proof.
  intros H1 H2.
  assert (E : inject_Z (250 * n - 463 * k)
              == 250 * inject_Z n - 463 * inject_Z k).
  { unfold Z.sub. rewrite inject_Z_plus, inject_Z_opp, !inject_Z_mult.
    reflexivity. }
  assert (-126 < 250 * n - 463 * k)%Z
    by (apply inject_Z_lt_inv; rewrite E; exact H1).
  assert (250 * n - 463 * k < 126)%Z
    by (apply inject_Z_lt_inv; rewrite E; exact H2).
  rewrite <- E. split.
  - change (- (125 # 1)) with (inject_Z (-125)). apply inject_Z_le. lia.
  - change 125 with (inject_Z 125). apply inject_Z_le. lia.
Qed.

(** From the parsed knots to the result. *)
Lemma speed_pipeline (k : Z) :
  (0 <= k < 100000000000)%Z ->
  let knots := of_Q false (k # 100) in
  exists N : Z,
    of_string (zero_pad 5 (format_f 2 (mul knots H02.knot)))
    = Ok (of_Q false (N # 100))
    /\ Qabs ((N # 100) - Shape.kmh k) <= 1 # 200
    /\ N = rne (to_Q (mul knots H02.knot) * 100).
Proof.
  intros Hk knots.
  pose proof (inject_Z_le 0 k ltac:(lia)) as Hk0.
  pose proof (inject_Z_le k 100000000000 ltac:(lia)) as Hk1.
  change (inject_Z 0) with 0 in Hk0.
  change (inject_Z 100000000000) with 100000000000 in Hk1.
  set (Ik := inject_Z k) in *. set (K := Ik * (1 # 100)).
  assert (HK : k # 100 == K) by apply Qmake_inject.
  (* the knots *)
  assert (Hx : plain knots /\ is_neg knots = false
               /\ K * (1 - eps53) <= to_Q knots <= K * (1 + eps53)
               /\ (k = 0%Z -> to_Q knots == 0)).
  { assert (Hc : (k = 0 \/ 1 <= k)%Z) by lia. destruct Hc as [Hc|Hc].
    - unfold knots, K, Ik. rewrite Hc. repeat split; try reflexivity;
        change (to_Q (of_Q false (0 # 100))) with 0;
        change (inject_Z 0) with 0; lra.
    - pose proof (inject_Z_ge1 k Hc) as H1. fold Ik in H1.
      destruct (of_Q_pos_mid (k # 100)) as (Hp & Hs & He1 & He2);
        [rewrite HK; unfold K; lra | rewrite HK; unfold K; lra |].
      split; [exact Hp|]. split; [exact Hs|]. split; [|lia]. split.
      + apply Qle_trans with ((k # 100) * (1 - eps53)); [|exact He1].
        rewrite HK. apply Qle_refl.
      + apply Qle_trans with ((k # 100) * (1 + eps53)); [exact He2|].
        rewrite HK. apply Qle_refl. }
  destruct Hx as (Hxp & Hxs & Hxe & Hx0). set (a1 := to_Q knots) in *.
  (* the product *)
  assert (Hkp : plain H02.knot) by (rewrite knot_value; exact I).
  assert (Hks : is_neg H02.knot = false) by (rewrite knot_value; reflexivity).
  rewrite (mul_plain knots H02.knot Hxp Hkp Hxs Hks). fold a1.
  assert (Ep : a1 * to_Q H02.knot
               == a1 * (8340666509890159 # 4503599627370496))
    by (rewrite to_Q_knot; reflexivity).
  rewrite (of_Q_proper false _ _ Ep).
  set (p := a1 * (8340666509890159 # 4503599627370496)).
  assert (Hy : plain (of_Q false p) /\ is_neg (of_Q false p) = false
               /\ p * (1 - eps53) <= to_Q (of_Q false p) <= p * (1 + eps53)).
  { assert (Hc : (k = 0 \/ 1 <= k)%Z) by lia. destruct Hc as [Hc|Hc].
    - assert (Ez : p == 0) by (unfold p; rewrite (Hx0 Hc); reflexivity).
      rewrite (of_Q_zero false p Ez). repeat split; try reflexivity;
        change (to_Q (Zero false)) with 0; lra.
    - pose proof (inject_Z_ge1 k Hc) as H1. fold Ik in H1.
      apply of_Q_pos_mid; unfold p, K in *; lra. }
  destruct Hy as (Hyp & Hys & Hye). set (y := of_Q false p) in *.
  pose proof (of_string_zero_pad_format_f 5 1 y Hyp Hys) as Ef.
  cbn zeta in Ef. rewrite Ef.
  change (Z.to_pos (10 ^ Z.of_nat 2)) with 100%positive.
  change (inject_Z (10 ^ Z.of_nat 2)) with 100.
  assert (Ha : Qabs (to_Q y) * 100 == to_Q y * 100).
  { rewrite Qabs_pos; [reflexivity|]. unfold p, K in *. lra. }
  rewrite (rne_proper _ _ Ha).
  set (n := rne (to_Q y * 100)). exists n.
  split; [reflexivity|]. split; [|reflexivity].
  pose proof (rne_bound (to_Q y * 100)) as Hn. fold n in Hn.
  set (a2 := to_Q y) in *.
  destruct (quarter_snap n k) as [Hz1 Hz2];
    [fold Ik; unfold p, K in *; lra | fold Ik; unfold p, K in *; lra |].
  fold Ik in Hz1, Hz2.
  apply Qabs_Qle_condition. unfold Shape.kmh.
  rewrite (Qmake_inject n), HK. unfold K. lra.
Qed.

Lemma speed_of_shape (ds fs : string) :
  String.length fs = 2%nat ->
  all_digits ds = true -> all_digits fs = true ->
  H02.speed_of (ds ++ String "." fs)
  = of_string
      (zero_pad 5
         (format_f 2 (mul (of_Q false (value (ds ++ fs) # 100)) H02.knot))).
Proof.
  intros Lf Hd Hf. unfold H02.speed_of.
  rewrite (of_string_decimal ds fs Hd Hf)
    by (right; intros ->; discriminate Lf).
  cbn [bind]. rewrite Lf, (decimal_Q_places (value (ds ++ fs)) 1).
  reflexivity.
Qed.

Lemma to_Q_nonneg (x : float) : is_neg x = false -> 0 <= to_Q x.
Proof.
  destruct x as [s|s| |s m e]; cbn [is_neg to_Q]; try (intros; apply Qle_refl).
  intros ->. apply Qmult_le_0_compat; [|apply Qlt_le_weak, pow2_pos].
  apply Qmult_le_0_compat; discriminate.
Qed.

Lemma round_pos_sign (s : bool) (q : Q) : is_neg (round_pos s q) = s.
Proof.
  unfold round_pos.
  destruct (rne (q / pow2 (Z.max (ilog2 q - 52) emin)) =? 2 ^ 53)%Z.
  - change (2 ^ 52 =? 0)%Z with false. cbv iota.
    now destruct (emax <? Z.max (ilog2 q - 52) emin + 1)%Z.
  - destruct (rne (q / pow2 (Z.max (ilog2 q - 52) emin)) =? 0)%Z;
      [reflexivity|].
    now destruct (emax <? Z.max (ilog2 q - 52) emin)%Z.
Qed.

Lemma of_Q_nonneg_sign (q : Q) : 0 <= q -> is_neg (of_Q false q) = false.
Proof.
  intros Hq. destruct (Qlt_le_dec 0 q) as [H|H].
  - rewrite of_Q_pos by exact H. apply round_pos_sign.
  - rewrite of_Q_zero by lra. reflexivity.
Qed.

(** The conversion on any text that [float] reads as a finite value that
    is not negative, the product being finite. *)
Lemma speed_of_float (raw : string) (x : float) :
  of_string raw = Ok x -> plain x -> is_neg x = false ->
  plain (mul x H02.knot) ->
  H02.speed_of raw
  = Ok (of_Q false (rne (to_Q (mul x H02.knot) * 100) # 100)).
Proof.
  intros E Hp Hs Hy. unfold H02.speed_of. rewrite E. cbn [bind].
  assert (Hkp : plain H02.knot) by (rewrite knot_value; exact I).
  assert (Hks : is_neg H02.knot = false) by (rewrite knot_value; reflexivity).
  assert (Hys : is_neg (mul x H02.knot) = false).
  { rewrite (mul_plain x H02.knot Hp Hkp Hs Hks). apply of_Q_nonneg_sign.
    apply Qmult_le_0_compat; apply to_Q_nonneg; [exact Hs | exact Hks]. }
  set (y := mul x H02.knot) in *. clearbody y.
  pose proof (of_string_zero_pad_format_f 5 1 y Hy Hys) as Ef.
  cbn zeta in Ef. rewrite Ef.
  change (Z.to_pos (10 ^ Z.of_nat 2)) with 100%positive.
  change (inject_Z (10 ^ Z.of_nat 2)) with 100.
  assert (Ha : Qabs (to_Q y) * 100 == to_Q y * 100).
  { rewrite Qabs_pos; [apply Qeq_refl | apply to_Q_nonneg; exact Hys]. }
  rewrite (rne_proper _ _ Ha). reflexivity.
Qed.

Lemma speed_range (ds fs : string) :
  (String.length ds <= 9)%nat -> String.length fs = 2%nat ->
  all_digits ds = true -> all_digits fs = true ->
  (0 <= value (ds ++ fs) < 100000000000)%Z.
Proof.
  intros Ld Lf Hd Hf.
  assert (Hdf : all_digits (ds ++ fs) = true)
    by (unfold all_digits in *; now rewrite all_append, Hd, Hf).
  pose proof (value_bounds (ds ++ fs) Hdf) as B.
  rewrite length_append, Lf in B.
  assert (10 ^ Z.of_nat (String.length ds + 2) <= 10 ^ 11)%Z
    by (apply Z.pow_le_mono_r; lia).
  change (10 ^ 11)%Z with 100000000000%Z in *. lia.
Qed.

End SpeedFacts.

(** C3: for a token that [float] reads as a finite value that is not
    negative, the speed conversion returns the double nearest to
    [N / 100], [N] being the binary64 product of the knots and the literal
    1.852, times 100, rounded to the nearest integer, ties to even (the
    product is to be finite). For a token of at most nine digits, a point
    and two digits, [N / 100] is the knots value times 1.852 rounded to 2
    decimal places: it lies within half of [10^-2] of the exact product.
    In particular "010.00" gives 18.52 and "000.00" gives 0.00. *)
Theorem speed_conversion :
  (forall (raw_speed : string) (knots : Float.float),
      Float.of_string raw_speed = Ok knots ->
      FloatKind.plain knots -> Float.is_neg knots = false ->
      FloatKind.plain (Float.mul knots H02.knot) ->
      H02.speed_of raw_speed
      = Ok (Float.of_Q false
              (Float.rne (Float.to_Q (Float.mul knots H02.knot) * 100)%Q
               # 100)))
  /\ (forall ds fs : string,
      (String.length ds <= 9)%nat -> String.length fs = 2%nat ->
      Decimal.all_digits ds = true -> Decimal.all_digits fs = true ->
      let raw_speed := ds ++ String "." fs in
      let k := Decimal.value (ds ++ fs) in
      exists N : Z,
        H02.speed_of raw_speed = Ok (Float.of_Q false (N # 100))
        /\ (Qabs ((N # 100) - Shape.kmh k) <= 1 # 200)%Q
        /\ N = Float.rne
                 (Float.to_Q (Float.mul (Float.of_Q false (k # 100)) H02.knot)
                  * 100)%Q
        /\ (forall self : H02.t,
               H02.regex_match self 10%nat = raw_speed ->
               H02._speed self = (Ok (Float.of_Q false (N # 100)), self)))
  /\ H02.speed_of "010.00" = Ok (Float.of_Q false (1852 # 100))
  /\ H02.speed_of "000.00" = Ok (Float.of_Q false (0 # 100)).
Proof.
  split; [exact SpeedFacts.speed_of_float|].
  split; [|split; vm_compute; reflexivity].
  intros ds fs Ld Lf Hd Hf raw_speed k.
  destruct (SpeedFacts.speed_pipeline k (SpeedFacts.speed_range ds fs Ld Lf Hd Hf))
    as (N & EN & HN & HR).
  assert (E : H02.speed_of raw_speed = Ok (Float.of_Q false (N # 100))).
  { unfold raw_speed. rewrite (SpeedFacts.speed_of_shape ds fs Lf Hd Hf).
    exact EN. }
  exists N. split; [exact E|]. split; [exact HN|]. split; [exact HR|].
  intros self Hraw. unfold H02._speed. now rewrite Hraw, E.
Qed.

Lemma speed_conversion_witness :
  exists N : Z,
    H02.speed_of "001.25" = Ok (Float.of_Q false (N # 100))
    /\ (Qabs ((N # 100) - Shape.kmh 125) <= 1 # 200)%Q.
Proof.
  destruct (proj1 (proj2 speed_conversion) "001" "25") as (N & E & H & _);
    try reflexivity; [simpl; lia|].
  exists N. split; [exact E | exact H].
Defined.

(** * Malformed coordinates *)






(** C10: the latitude text "441395467", nine digits without a point, is
    matched -- the pattern's [.] takes the digit 9 -- and converts to a
    number without an error; so does the longitude text "1275494324". *)
Theorem digits_only_tokens_convert :
  Re.coordinate 2 "441395467" = Some ("44", "1395467")
  /\ Re.coordinate 3 "1275494324" = Some ("127", "5494324")
  /\ (forall self : H02.t,
         H02.regex_match self 6%nat = "441395467" ->
         H02._latitude self
         = (Ok (Float.of_Q false (23301783333 # 1000000)), self))
  /\ (forall self : H02.t,
         H02.regex_match self 8%nat = "1275494324" ->
         H02._longitude self
         = (Ok (Float.of_Q false (91699066667 # 1000000)), self)).
Proof.
  split; [reflexivity|]. split; [reflexivity|].
  split; intros self Hraw.
  - unfold H02._latitude. rewrite Hraw.
    apply (f_equal (fun r => (r, self))). vm_compute. reflexivity.
  - unfold H02._longitude. rewrite Hraw.
    apply (f_equal (fun r => (r, self))). vm_compute. reflexivity.
Qed.

Lemma digits_only_tokens_convert_witness :
  let self := {| H02.regex_match := fun _ => "441395467";
                 H02.vehicle_status_bytes := [];
                 H02.vehicle_status_first_byte := "";
                 H02.vehicle_status_second_byte := "";
                 H02.vehicle_status_third_byte := "";
                 H02.vehicle_status_fourth_byte := "";
                 H02._maker := ""; H02._device_serial_number := "";
                 H02._time := ""; H02._validity := ""; H02._direction := "";
                 H02._mobile_country_code := "";
                 H02._mobile_network_code := "";
                 H02._local_area_code := ""; H02._cell_id := "" |} in
  fst (H02._latitude self) = Ok (Float.of_Q false (23301783333 # 1000000)).
Proof.
  intros self.
  destruct digits_only_tokens_convert as (_ & _ & H & _).
  now rewrite (H self eq_refl).
Defined.

(** * Status bytes *)

(** C7: the status blob of eight characters is split into four tokens of
    two characters, in order; [_acc] is [get_bit_state] on the third of
    them, at bit position 6, and leaves the object as it is; for a third
    token of two hexadecimal digits it is 1 exactly when the bit of weight
    32 of that byte is 0. *)
Theorem status_bytes_and_acc
  (m : nat -> string) (c1 c2 c3 c4 c5 c6 c7 c8 : ascii) :
  m 13%nat
  = String c1 (String c2 (String c3 (String c4
      (String c5 (String c6 (String c7 (String c8 ""))))))) ->
  exists self : H02.t,
    H02.__init__ m = Ok self
    /\ H02.vehicle_status_bytes self
       = [String c1 (String c2 ""); String c3 (String c4 "");
          String c5 (String c6 ""); String c7 (String c8 "")]
    /\ H02.vehicle_status_third_byte self = String c5 (String c6 "")
    /\ H02._acc self
       = (H02.get_bit_state (String c5 (String c6 "")) 6, self)
    /\ (Char.is_hex c5 = true -> Char.is_hex c6 = true ->
        let v := 16 * Char.digit_value c5 + Char.digit_value c6 in
        fst (H02._acc self) = Ok (if Z.testbit v 5 then 0 else 1)).
Proof.
  intros Hm. unfold H02.__init__. rewrite Hm. cbn.
  eexists. split; [reflexivity|]. cbn.
  split; [reflexivity|]. split; [reflexivity|]. split; [reflexivity|].
  intros H5 H6.
  exact (get_bit_state_testbit _ _ 6 (int16_two_hex c5 c6 H5 H6) ltac:(lia)).
Qed.

Lemma status_bytes_and_acc_witness :
  exists self : H02.t,
    H02.__init__ (fun _ => "FFFF9FFF") = Ok self
    /\ H02.vehicle_status_bytes self = ["FF"; "FF"; "9F"; "FF"]
    /\ fst (H02._acc self) = Ok 1.
Proof.
  destruct (status_bytes_and_acc (fun _ => "FFFF9FFF")
              "F" "F" "F" "F" "9" "F" "F" "F" eq_refl)
    as (self & E & Hb & _ & _ & Ha).
  exists self. split; [exact E|]. split; [exact Hb|].
  exact (Ha eq_refl eq_refl).
Defined.

(** * Frame dispatch *)

Lemma reraise_id {World Location : Type} (r : result Location * World) :
  PacketDecoder.reraise r = r.
Proof.
  destruct r as [[a|e] w]; [reflexivity|]. unfold PacketDecoder.reraise.
  now destruct (exn_eqb e UnicodeDecodeError || exn_eqb e RegExMatchError
                || exn_eqb e BadProtocolError).
Qed.

(** C4: [decode] on bytes that are empty or begin with a byte other than
    [*] and [$] raises [BadProtocolError], no decoder being called (the
    state is untouched, no record is returned); bytes that begin with [*]
    go to the ASCII decoder and bytes that begin with [$] to the binary
    decoder, whose outcome is returned as it is. *)
Theorem decode_dispatch
  (World Location : Type)
  (decode_h02_ascii_packet decode_h02_binary_packet :
     list byte -> World -> result Location * World)
  (raw_bytes : list byte) (w : World) :
  let decode :=
    PacketDecoder.decode decode_h02_ascii_packet decode_h02_binary_packet in
  ((raw_bytes = []
    \/ exists b t, raw_bytes = b :: t /\ b <> "*"%byte /\ b <> "$"%byte) ->
   decode raw_bytes w = (Raise BadProtocolError, w))
  /\ ((exists t, raw_bytes = "*"%byte :: t) ->
      decode raw_bytes w = decode_h02_ascii_packet raw_bytes w)
  /\ ((exists t, raw_bytes = "$"%byte :: t) ->
      decode raw_bytes w = decode_h02_binary_packet raw_bytes w).
Proof.
  intros decode. unfold decode, PacketDecoder.decode.
  rewrite reraise_id. repeat split.
  - intros [->|(b & t & -> & Ha & Hb)]; [reflexivity|].
    unfold PacketDecoder.startswith.
    destruct (Byte.eqb b "*") eqn:Ea; [apply Byte.byte_dec_bl in Ea; contradiction|].
    destruct (Byte.eqb b "$") eqn:Eb; [apply Byte.byte_dec_bl in Eb; contradiction|].
    reflexivity.
  - intros (t & ->). reflexivity.
  - intros (t & ->). reflexivity.
Qed.

Lemma decode_dispatch_witness :
  PacketDecoder.decode (World := nat) (Location := nat)
    (fun raw w => (Ok 1%nat, S w)) (fun raw w => (Ok 2%nat, S w))
    ["#"%byte; "g"%byte] 0%nat
  = (Raise BadProtocolError, 0%nat).
Proof.
  apply (decode_dispatch nat nat). right.
  exists "#"%byte, ["g"%byte]. repeat split; discriminate.
Defined.

(** * Determinism *)



(** * Further properties of [get_bit_state] *)

(** X1: the eight states of a token of two hexadecimal digits give the
    byte back: the sum of [2^(pos - 1)] over the positions 1 to 8 whose
    state is 0 is the value of the token. *)
Theorem bit_states_rebuild_byte (c1 c2 : ascii) :
  Char.is_hex c1 = true -> Char.is_hex c2 = true ->
  Bits.byte_of_states (String c1 (String c2 "")) [1; 2; 3; 4; 5; 6; 7; 8]
  = Ok (16 * Char.digit_value c1 + Char.digit_value c2).
Proof.
  intros H1 H2. apply is_hex_cases in H1. apply is_hex_cases in H2.
  simpl in H1, H2.
  repeat (destruct H1 as [<-|H1]); try contradiction;
    repeat (destruct H2 as [<-|H2]); try contradiction;
    vm_compute; reflexivity.
Qed.

Lemma bit_states_rebuild_byte_witness :
  Bits.byte_of_states "9F" [1; 2; 3; 4; 5; 6; 7; 8] = Ok 159.
Proof.
  apply (bit_states_rebuild_byte "9" "F"); reflexivity.
Defined.

Lemma int16_lower (c1 c2 : ascii) :
  Char.is_hex c1 = true -> Char.is_hex c2 = true ->
  PyInt.int16 (Bits.lower (String c1 (String c2 "")))
  = PyInt.int16 (String c1 (String c2 "")).
Proof.
  intros H1 H2. apply is_hex_cases in H1. apply is_hex_cases in H2.
  simpl in H1, H2.
  repeat (destruct H1 as [<-|H1]); try contradiction;
    repeat (destruct H2 as [<-|H2]); try contradiction;
    vm_compute; reflexivity.
Qed.

(** X2: the case of the hexadecimal digits does not matter: a token of
    two hexadecimal digits and its lower-case form have the same state,
    or the same error, at every position. *)
Theorem get_bit_state_ignores_case (c1 c2 : ascii) (pos : Z) :
  Char.is_hex c1 = true -> Char.is_hex c2 = true ->
  H02.get_bit_state (Bits.lower (String c1 (String c2 ""))) pos
  = H02.get_bit_state (String c1 (String c2 "")) pos.
Proof.
  intros H1 H2. unfold H02.get_bit_state.
  now rewrite (int16_lower c1 c2 H1 H2).
Qed.

Lemma get_bit_state_ignores_case_witness :
  H02.get_bit_state "9f" 6 = H02.get_bit_state "9F" 6.
Proof.
  apply (get_bit_state_ignores_case "9" "F" 6); reflexivity.
Defined.

(** * The status blob in [__init__] *)



(** * Further properties of the coordinate conversion *)

Module CoordinateMore.

Import Float Decimal StrFacts CoordFacts.

(** The pattern on a text of the shape with any separator. *)
Lemma coordinate_any_separator
  (n : nat) (neg : bool) (ds ms fs rest : string) (c : ascii) :
  String.length ds = n -> String.length ms = 2%nat ->
  String.length fs = 4%nat ->
  all_digits ds = true -> all_digits ms = true -> all_digits fs = true ->
  Re.is_dot_char c = true ->
  Re.coordinate n (sign_string neg ++ ds ++ ms ++ String c (fs ++ rest))
  = Some (sign_string neg ++ ds, ms ++ String c fs).
Proof.
  intros Ln Lm Lf Hd Hm Hf Hc.
  assert (Hb : forall sign,
             Re.coordinate_body n sign (ds ++ ms ++ String c (fs ++ rest))
             = Some (sign ++ ds, ms ++ String c fs)).
  { intros sign. unfold Re.coordinate_body.
    rewrite (digits_then_append n ds _ Ln Hd).
    rewrite (digits_then_append 2 ms _ Lm Hm). rewrite Hc.
    now rewrite (digits_then_append 4 fs _ Lf Hf). }
  destruct neg; cbn [sign_string String.append].
  - unfold Re.coordinate. change (Ascii.eqb "-" "-") with true. cbv iota.
    now rewrite Hb.
  - specialize (Hb ""). cbn [String.append] in Hb. unfold Re.coordinate.
    destruct (ds ++ ms ++ String c (fs ++ rest)) as [|x t] eqn:E;
      [exact Hb|].
    assert (Hx : Char.is_digit x = true).
    { destruct ds as [|y ds]; cbn [String.append] in E.
      - destruct ms as [|y ms]; [discriminate Lm|].
        cbn [String.append] in E. injection E as <- _.
        unfold all_digits in Hm. cbn [Str.all] in Hm.
        now apply andb_true_iff in Hm as [Hy _].
      - injection E as <- _. unfold all_digits in Hd. cbn [Str.all] in Hd.
        now apply andb_true_iff in Hd as [Hy _]. }
    destruct (digit_not_sign x Hx) as (Hm' & _). now rewrite Hm'.
Qed.

Lemma no_underscore_kept (s : string) (prev : ascii) :
  Str.all (fun c => negb (Ascii.eqb c "_")) s = true ->
  Ascii.eqb prev "_" = false ->
  remove_underscores s prev = Some s.
Proof.
  revert prev. induction s as [|x s IH]; intros prev; simpl.
  - intros _ ->. reflexivity.
  - intros [Hx Hs]%andb_true_iff Hp. apply negb_true_iff in Hx.
    rewrite Hx, Hp. simpl. now rewrite (IH x Hs Hx).
Qed.

Lemma rev_acc_head (p : ascii -> bool) (b acc : string) :
  Str.all p b = true -> b <> "" ->
  match Str.rev_acc b acc with
  | String x _ => p x = true
  | EmptyString => False
  end.
Proof.
  revert acc. induction b as [|x b IH]; intros acc Hb Hne; [contradiction|].
  cbn [Str.all] in Hb. apply andb_true_iff in Hb as [Hx Hb].
  cbn [Str.rev_acc]. destruct b as [|y b].
  - cbn [Str.rev_acc]. exact Hx.
  - apply IH; [exact Hb | discriminate].
Qed.

Lemma rev_acc_append (a b acc : string) :
  Str.rev_acc (a ++ b) acc = Str.rev_acc b (Str.rev_acc a acc).
Proof.
  revert acc. induction a as [|x a IH]; intros acc; [reflexivity|].
  cbn [String.append Str.rev_acc]. apply IH.
Qed.

(** Stripping leaves a text that begins and ends with a digit. *)
Lemma strip_between_digits (a b : string) (c : ascii) :
  all_digits a = true -> all_digits b = true -> a <> "" -> b <> "" ->
  Str.strip (a ++ String c b) = a ++ String c b.
Proof.
  intros Ha Hb Na Nb. unfold Str.strip.
  assert (Hns : forall x, Char.is_digit x = true -> Char.is_space x = false)
    by (intros x Hx; now destruct (digit_not_sign x Hx) as (_ & _ & _ & _ & H)).
  assert (E1 : Str.lstrip (a ++ String c b) = a ++ String c b).
  { destruct a as [|x a]; [contradiction|]. cbn [String.append Str.lstrip].
    unfold all_digits in Ha. cbn [Str.all] in Ha.
    apply andb_true_iff in Ha as [Hx _]. now rewrite (Hns x Hx). }
  rewrite E1.
  assert (E2 : Str.lstrip (Str.rev (a ++ String c b))
               = Str.rev (a ++ String c b)).
  { unfold Str.rev. rewrite rev_acc_append. cbn [Str.rev_acc].
    pose proof (rev_acc_head Char.is_digit b
                  (String c (Str.rev_acc a "")) Hb Nb) as Hh.
    destruct (Str.rev_acc b (String c (Str.rev_acc a ""))) as [|x t];
      [contradiction|].
    cbn [Str.lstrip]. now rewrite (Hns x Hh). }
  rewrite E2. apply rev_involutive.
Qed.

(** [float] on digits, a separator it does not read, and digits. *)
Lemma of_string_bad_separator (a b : string) (c : ascii) :
  all_digits a = true -> all_digits b = true -> a <> "" -> b <> "" ->
  FloatSpecial.bad_separator c = true ->
  of_string (a ++ String c b) = Raise ValueError.
Proof.
  intros Ha Hb Na Nb Hc. unfold FloatSpecial.bad_separator in Hc.
  repeat (apply andb_true_iff in Hc as [Hc ?]).
  repeat match goal with H : negb _ = true |- _ => apply negb_true_iff in H end.
  unfold of_string.
  assert (Hu : Str.all (fun x => negb (Ascii.eqb x "_")) (a ++ String c b)
               = true).
  { rewrite all_append. cbn [Str.all].
    assert (Hd : forall s, all_digits s = true ->
                 Str.all (fun x => negb (Ascii.eqb x "_")) s = true).
    { intros s. apply all_impl. intros x Hx.
      destruct (digit_not_sign x Hx) as (_ & _ & _ & Hxu & _).
      now rewrite Hxu. }
    rewrite (Hd a Ha), (Hd b Hb). cbn [andb].
    match goal with H : Ascii.eqb c "_" = false |- _ => now rewrite H end. }
  rewrite (no_underscore_kept _ "000" Hu eq_refl).
  rewrite (strip_between_digits a b c Ha Hb Na Nb).
  assert (Hh : match a ++ String c b with
               | String x _ => Char.is_digit x = true \/ x = "."%char
               | EmptyString => True
               end).
  { destruct a as [|x a]; [contradiction|]. cbn [String.append].
    unfold all_digits in Ha. cbn [Str.all] in Ha.
    apply andb_true_iff in Ha as [Hx _]. now left. }
  rewrite (strip_sign_digit_or_dot _ Hh).
  unfold strtod.
  assert (Hst : stops (String c b) = true)
    by (cbn [stops]; now rewrite Hc).
  rewrite (digits_run a (String c b) 0 0 Ha Hst).
  match goal with H : Ascii.eqb c "." = false |- _ => rewrite H end.
  destruct (0 + String.length a + 0)%nat eqn:El.
  - destruct a; [contradiction | discriminate El].
  - unfold exponent.
    repeat match goal with
           | H : Ascii.eqb c _ = false |- _ => rewrite H
           end.
    reflexivity.
Qed.

End CoordinateMore.

(** X4: what follows the four digits after the separator is ignored: on a
    text that begins with the shape, the conversion gives what it gives
    on the shape alone, whatever the rest. *)
Theorem coordinate_ignores_trailing_text
  (n : nat) (neg : bool) (ds ms fs rest : string) (c : ascii) :
  String.length ds = n -> String.length ms = 2%nat ->
  String.length fs = 4%nat ->
  Decimal.all_digits ds = true -> Decimal.all_digits ms = true ->
  Decimal.all_digits fs = true -> c <> "010"%char ->
  H02.decimal_degrees n
    (Float.sign_string neg ++ ds ++ ms ++ String c (fs ++ rest))
  = H02.decimal_degrees n (Float.sign_string neg ++ ds ++ ms ++ String c fs).
Proof.
  intros Ln Lm Lf Hd Hm Hf Hc.
  assert (Hdot : Re.is_dot_char c = true).
  { unfold Re.is_dot_char. destruct (Ascii.eqb_spec c "010"); [contradiction|].
    reflexivity. }
  pose proof (CoordinateMore.coordinate_any_separator
                n neg ds ms fs rest c Ln Lm Lf Hd Hm Hf Hdot) as E1.
  pose proof (CoordinateMore.coordinate_any_separator
                n neg ds ms fs "" c Ln Lm Lf Hd Hm Hf Hdot) as E2.
  rewrite StrFacts.append_nil_r in E2.
  unfold H02.decimal_degrees. now rewrite E1, E2.
Qed.

Lemma coordinate_ignores_trailing_text_witness :
  H02.decimal_degrees 2 "4413.5467,N,extra"
  = H02.decimal_degrees 2 "4413.5467".
Proof.
  apply (coordinate_ignores_trailing_text 2 false "44" "13" "5467" ",N,extra" ".");
    try reflexivity. discriminate.
Defined.

(** X5: a minus sign before degrees that are zero is lost: the text
    [-00MM.MMMM] converts to what [00MM.MMMM] converts to, which is not
    negative. *)
Theorem minus_zero_degrees_lost (n : nat) (ds ms fs : string) :
  (n = 2 \/ n = 3)%nat ->
  String.length ds = n -> String.length ms = 2%nat ->
  String.length fs = 4%nat ->
  Decimal.all_digits ds = true -> Decimal.all_digits ms = true ->
  Decimal.all_digits fs = true ->
  Decimal.value ds = 0 ->
  H02.decimal_degrees n (String "-" (ds ++ ms ++ String "." fs))
  = H02.decimal_degrees n (ds ++ ms ++ String "." fs).
Proof.
  intros Hn Ln Lm Lf Hd Hm Hf Hz.
  pose proof (CoordinateTheorems.decimal_degrees_shape
                n true ds ms fs Hn Ln Lm Lf Hd Hm Hf) as E1.
  pose proof (CoordinateTheorems.decimal_degrees_shape
                n false ds ms fs Hn Ln Lm Lf Hd Hm Hf) as E2.
  cbn [Float.sign_string String.append] in E1, E2.
  rewrite E1, E2, Hz. reflexivity.
Qed.

Lemma minus_zero_degrees_lost_witness :
  H02.decimal_degrees 2 "-0013.5467" = H02.decimal_degrees 2 "0013.5467".
Proof.
  apply (minus_zero_degrees_lost 2 "00" "13" "5467"); try reflexivity.
  now left.
Defined.

(** X6: a text of the shape whose separator is neither a point, a digit,
    an underscore nor a letter [e] is matched by the pattern, and the
    conversion then fails in [float], with [ValueError] and not with the
    [AttributeError] of a text that is not matched. *)
Theorem bad_separator_value_error
  (n : nat) (neg : bool) (ds ms fs rest : string) (c : ascii) :
  (n = 2 \/ n = 3)%nat ->
  String.length ds = n -> String.length ms = 2%nat ->
  String.length fs = 4%nat ->
  Decimal.all_digits ds = true -> Decimal.all_digits ms = true ->
  Decimal.all_digits fs = true ->
  c <> "010"%char -> FloatSpecial.bad_separator c = true ->
  H02.decimal_degrees n
    (Float.sign_string neg ++ ds ++ ms ++ String c (fs ++ rest))
  = Raise ValueError.
Proof.
  intros Hn Ln Lm Lf Hd Hm Hf Hc Hbad.
  assert (Hdot : Re.is_dot_char c = true).
  { unfold Re.is_dot_char. destruct (Ascii.eqb_spec c "010"); [contradiction|].
    reflexivity. }
  unfold H02.decimal_degrees.
  rewrite (CoordinateMore.coordinate_any_separator
             n neg ds ms fs rest c Ln Lm Lf Hd Hm Hf Hdot).
  cbn [Re.group bind].
  rewrite (CoordFacts.int10_digits neg ds Hd)
    by (intros ->; destruct Hn as [-> | ->]; discriminate Ln).
  cbn [Re.group bind].
  rewrite (CoordinateMore.of_string_bad_separator ms fs c Hm Hf)
    by (try exact Hbad; intros ->; discriminate).
  reflexivity.
Qed.

Lemma bad_separator_value_error_witness :
  H02.decimal_degrees 2 "4413,5467" = Raise ValueError.
Proof.
  apply (bad_separator_value_error 2 false "44" "13" "5467" "" ",");
    try reflexivity; [now left | discriminate].
Defined.

(** * Order and rounding of the results *)

Module ResultFacts.

Import Float FloatKind FloatFacts FormatFacts Numeric DegreesFacts.

Local Open Scope Q_scope.

Lemma rne_unique (q : Q) (z : Z) :
  inject_Z z - (1 # 2) < q -> q < inject_Z z + (1 # 2) -> rne q = z.
Proof.
  intros H1 H2. pose proof (rne_bound q) as [Hb1 Hb2].
  assert (rne q < z + 1)%Z.
  { apply inject_Z_lt_inv. rewrite inject_Z_plus.
    change (inject_Z 1) with 1. lra. }
  assert (z < rne q + 1)%Z.
  { apply inject_Z_lt_inv. rewrite inject_Z_plus.
    change (inject_Z 1) with 1. lra. }
  lia.
Qed.

(** The double nearest to [N / 10^6]. *)
Lemma millionths (N : Z) :
  (-2000000000 <= N <= 2000000000)%Z ->
  let v := of_Q false (N # 1000000) in
  let q := inject_Z N * (1 # 1000000) in
  plain v
  /\ (0 <= q -> is_neg v = false /\ q * (1 - eps53) <= to_Q v <= q * (1 + eps53))
  /\ (q < 0 -> is_neg v = true /\ q * (1 + eps53) <= to_Q v <= q * (1 - eps53)).
Proof.
  intros HN v q.
  assert (Hq : N # 1000000 == q) by apply Qmake_inject.
  pose proof (inject_Z_le N 2000000000 ltac:(lia)) as Hup.
  pose proof (inject_Z_le (-2000000000) N ltac:(lia)) as Hdn.
  change (inject_Z 2000000000) with 2000000000 in Hup.
  change (inject_Z (-2000000000)) with (-2000000000) in Hdn.
  assert (Hc : (N = 0 \/ 1 <= N \/ N <= -1)%Z) by lia.
  destruct Hc as [Hc|[Hc|Hc]].
  - unfold v, q. rewrite Hc. split; [reflexivity|].
    change (to_Q (of_Q false (0 # 1000000))) with 0.
    change (inject_Z 0) with 0. split; intros H; [split; [reflexivity | lra] | lra].
  - pose proof (inject_Z_ge1 N Hc) as H1.
    destruct (of_Q_pos_mid (N # 1000000)) as (Hp & Hs & He1 & He2);
      [rewrite Hq; unfold q; lra | rewrite Hq; unfold q; lra |].
    fold v in Hp, Hs, He1, He2. split; [exact Hp|].
    assert (E1 : q * (1 - eps53) <= to_Q v).
    { apply Qle_trans with ((N # 1000000) * (1 - eps53)); [|exact He1].
      rewrite Hq. apply Qle_refl. }
    assert (E2 : to_Q v <= q * (1 + eps53)).
    { apply Qle_trans with ((N # 1000000) * (1 + eps53)); [exact He2|].
      rewrite Hq. apply Qle_refl. }
    split; intros H; [split; [exact Hs | split; assumption] | unfold q in H; lra].
  - pose proof (inject_Z_le N (-1) Hc) as H1.
    change (inject_Z (-1)) with (-1) in H1.
    destruct (of_Q_neg_mid (N # 1000000)) as (Hp & Hs & He1 & He2);
      [rewrite Hq; unfold q; lra | rewrite Hq; unfold q; lra |].
    fold v in Hp, Hs, He1, He2. split; [exact Hp|].
    assert (E1 : q * (1 + eps53) <= to_Q v).
    { apply Qle_trans with ((N # 1000000) * (1 + eps53)); [|exact He1].
      rewrite Hq. apply Qle_refl. }
    assert (E2 : to_Q v <= q * (1 - eps53)).
    { apply Qle_trans with ((N # 1000000) * (1 - eps53)); [exact He2|].
      rewrite Hq. apply Qle_refl. }
    split; intros H; [unfold q in H; lra | split; [exact Hs | split; assumption]].
Qed.

(** The double nearest to [N / 100]. *)
Lemma hundredths (N : Z) :
  (0 <= N <= 200000000000)%Z ->
  let v := of_Q false (N # 100) in
  let q := inject_Z N * (1 # 100) in
  plain v /\ is_neg v = false
  /\ q * (1 - eps53) <= to_Q v <= q * (1 + eps53).
Proof.
  intros HN v q.
  assert (Hq : N # 100 == q) by apply Qmake_inject.
  pose proof (inject_Z_le N 200000000000 ltac:(lia)) as Hup.
  change (inject_Z 200000000000) with 200000000000 in Hup.
  assert (Hc : (N = 0 \/ 1 <= N)%Z) by lia.
  destruct Hc as [Hc|Hc].
  - unfold v, q. rewrite Hc. split; [reflexivity|]. split; [reflexivity|].
    change (to_Q (of_Q false (0 # 100))) with 0.
    change (inject_Z 0) with 0. lra.
  - pose proof (inject_Z_ge1 N Hc) as H1.
    destruct (of_Q_pos_mid (N # 100)) as (Hp & Hs & He1 & He2);
      [rewrite Hq; unfold q; lra | rewrite Hq; unfold q; lra |].
    fold v in Hp, Hs, He1, He2. split; [exact Hp|]. split; [exact Hs|]. split.
    + apply Qle_trans with ((N # 100) * (1 - eps53)); [|exact He1].
      rewrite Hq. apply Qle_refl.
    + apply Qle_trans with ((N # 100) * (1 + eps53)); [exact He2|].
      rewrite Hq. apply Qle_refl.
Qed.

(** The degrees pipeline, with the size of [N]. *)
Lemma degrees_N_range (deg k N : Z) :
  (-999 <= deg <= 999)%Z -> (0 <= k <= 999999)%Z ->
  Qabs ((N # 1000000) - Shape.decimal_degrees deg k) <= 1 # 3000000 ->
  (-2000000000 <= N <= 2000000000)%Z.
Proof.
  intros Hd Hk H. apply Qabs_Qle_condition in H.
  rewrite (Qmake_inject N), exact_degrees in H.
  rewrite inject_Z_plus, inject_Z_mult in H.
  change (inject_Z 600000) with 600000 in H.
  pose proof (inject_Z_le deg 999 ltac:(lia)) as Hd1.
  pose proof (inject_Z_le (-999) deg ltac:(lia)) as Hd0.
  pose proof (inject_Z_le 0 k ltac:(lia)) as Hk0.
  pose proof (inject_Z_le k 999999 ltac:(lia)) as Hk1.
  change (inject_Z 999) with 999 in Hd1.
  change (inject_Z (-999)) with (-999) in Hd0.
  change (inject_Z 0) with 0 in Hk0.
  change (inject_Z 999999) with 999999 in Hk1.
  split.
  - assert (-2000000001 < N)%Z; [|lia]. apply inject_Z_lt_inv.
    change (inject_Z (-2000000001)) with (-2000000001). lra.
  - assert (N < 2000000001)%Z; [|lia]. apply inject_Z_lt_inv.
    change (inject_Z 2000000001) with 2000000001. lra.
Qed.

Lemma speed_N_range (k N : Z) :
  (0 <= k < 100000000000)%Z ->
  Qabs ((N # 100) - Shape.kmh k) <= 1 # 200 ->
  (0 <= N <= 200000000000)%Z.
Proof.
  intros Hk H. apply Qabs_Qle_condition in H. unfold Shape.kmh in H.
  rewrite (Qmake_inject N), (Qmake_inject k) in H.
  pose proof (inject_Z_le 0 k ltac:(lia)) as Hk0.
  pose proof (inject_Z_le k 100000000000 ltac:(lia)) as Hk1.
  change (inject_Z 0) with 0 in Hk0.
  change (inject_Z 100000000000) with 100000000000 in Hk1.
  split.
  - assert (-1 < N)%Z; [|lia]. apply inject_Z_lt_inv.
    change (inject_Z (-1)) with (-1). lra.
  - assert (N < 200000000001)%Z; [|lia]. apply inject_Z_lt_inv.
    change (inject_Z 200000000001) with 200000000001. lra.
Qed.

(** Rounding again: a double nearest to [N / 10^6], printed with six
    decimals and read back, is itself. *)
Lemma reround_millionths (N : Z) :
  (-2000000000 <= N <= 2000000000)%Z ->
  of_string (format_f 6 (of_Q false (N # 1000000)))
  = Ok (of_Q false (N # 1000000)).
Proof.
  intros HN. destruct (millionths N HN) as (Hp & Hpos & Hneg).
  cbn zeta in Hpos, Hneg.
  set (v := of_Q false (N # 1000000)) in *.
  pose proof (of_string_format_f 5 v Hp) as Ef. cbn zeta in Ef. rewrite Ef.
  change (Z.to_pos (10 ^ Z.of_nat 6)) with 1000000%positive.
  change (inject_Z (10 ^ Z.of_nat 6)) with 1000000.
  pose proof (inject_Z_le N 2000000000 ltac:(lia)) as Hup.
  pose proof (inject_Z_le (-2000000000) N ltac:(lia)) as Hdn.
  change (inject_Z 2000000000) with 2000000000 in Hup.
  change (inject_Z (-2000000000)) with (-2000000000) in Hdn.
  set (I := inject_Z N) in *.
  destruct (Qlt_le_dec (I * (1 # 1000000)) 0) as [Hs|Hs].
  - destruct (Hneg Hs) as (En & Hb). rewrite En.
    assert (Ea : Qabs (to_Q v) == - to_Q v) by (apply Qabs_neg; lra).
    assert (Er : rne (Qabs (to_Q v) * 1000000) = (- N)%Z).
    { apply rne_unique; rewrite Ea, inject_Z_opp; fold I; lra. }
    rewrite Er. change (- (- N # 1000000)) with (- - N # 1000000).
    rewrite Z.opp_involutive. f_equal. apply of_Q_sign_irrelevant.
    rewrite (Qmake_inject N). fold I. lra.
  - destruct (Hpos Hs) as (En & Hb). rewrite En.
    assert (Ea : Qabs (to_Q v) == to_Q v) by (apply Qabs_pos; lra).
    assert (Er : rne (Qabs (to_Q v) * 1000000) = N).
    { apply rne_unique; rewrite Ea; fold I; lra. }
    now rewrite Er.
Qed.

(** The same with two decimals and the padding. *)
Lemma reround_hundredths (N : Z) :
  (0 <= N <= 200000000000)%Z ->
  of_string (zero_pad 5 (format_f 2 (of_Q false (N # 100))))
  = Ok (of_Q false (N # 100)).
Proof.
  intros HN. destruct (hundredths N HN) as (Hp & Hs & Hb).
  cbn zeta in Hb. set (v := of_Q false (N # 100)) in *.
  pose proof (of_string_zero_pad_format_f 5 1 v Hp Hs) as Ef.
  cbn zeta in Ef. rewrite Ef.
  change (Z.to_pos (10 ^ Z.of_nat 2)) with 100%positive.
  change (inject_Z (10 ^ Z.of_nat 2)) with 100.
  pose proof (inject_Z_le N 200000000000 ltac:(lia)) as Hup.
  pose proof (inject_Z_le 0 N ltac:(lia)) as Hdn.
  change (inject_Z 200000000000) with 200000000000 in Hup.
  change (inject_Z 0) with 0 in Hdn.
  set (I := inject_Z N) in *.
  assert (Ea : Qabs (to_Q v) == to_Q v) by (apply Qabs_pos; lra).
  assert (Er : rne (Qabs (to_Q v) * 100) = N).
  { apply rne_unique; rewrite Ea; fold I; lra. }
  now rewrite Er.
Qed.

End ResultFacts.

(** X7: two texts of the shape keep their order: when
    [degrees + minutes / 60] of the first is below that of the second,
    the conversion returns finite doubles, the first below the second; so
    two texts with different exact values never convert to one double. *)
Theorem coordinate_conversion_increasing
  (n : nat) (neg1 neg2 : bool) (ds1 ms1 fs1 ds2 ms2 fs2 : string) :
  (n = 2 \/ n = 3)%nat ->
  String.length ds1 = n -> String.length ms1 = 2%nat ->
  String.length fs1 = 4%nat ->
  String.length ds2 = n -> String.length ms2 = 2%nat ->
  String.length fs2 = 4%nat ->
  Decimal.all_digits ds1 = true -> Decimal.all_digits ms1 = true ->
  Decimal.all_digits fs1 = true ->
  Decimal.all_digits ds2 = true -> Decimal.all_digits ms2 = true ->
  Decimal.all_digits fs2 = true ->
  let degrees1 := if neg1 then - Decimal.value ds1 else Decimal.value ds1 in
  let degrees2 := if neg2 then - Decimal.value ds2 else Decimal.value ds2 in
  (Shape.decimal_degrees degrees1 (Decimal.value (ms1 ++ fs1))
   < Shape.decimal_degrees degrees2 (Decimal.value (ms2 ++ fs2)))%Q ->
  exists v1 v2 : Float.float,
    H02.decimal_degrees n
      (Float.sign_string neg1 ++ ds1 ++ ms1 ++ String "." fs1) = Ok v1
    /\ H02.decimal_degrees n
         (Float.sign_string neg2 ++ ds2 ++ ms2 ++ String "." fs2) = Ok v2
    /\ FloatKind.plain v1 /\ FloatKind.plain v2
    /\ (Float.to_Q v1 < Float.to_Q v2)%Q.
Proof.
  intros Hn L1 L2 L3 L4 L5 L6 H1 H2 H3 H4 H5 H6 degrees1 degrees2 Hlt.
  destruct (CoordinateTheorems.shape_ranges n neg1 ds1 ms1 fs1 Hn L1 L2 L3 H1 H2 H3)
    as [Rd1 Rk1].
  destruct (CoordinateTheorems.shape_ranges n neg2 ds2 ms2 fs2 Hn L4 L5 L6 H4 H5 H6)
    as [Rd2 Rk2].
  fold degrees1 in Rd1. fold degrees2 in Rd2.
  set (k1 := Decimal.value (ms1 ++ fs1)) in *.
  set (k2 := Decimal.value (ms2 ++ fs2)) in *.
  destruct (DegreesFacts.degrees_pipeline degrees1 k1 Rd1 Rk1) as (N1 & E1 & B1).
  destruct (DegreesFacts.degrees_pipeline degrees2 k2 Rd2 Rk2) as (N2 & E2 & B2).
  pose proof (ResultFacts.degrees_N_range degrees1 k1 N1 Rd1 Rk1 B1) as R1.
  pose proof (ResultFacts.degrees_N_range degrees2 k2 N2 Rd2 Rk2 B2) as R2.
  exists (Float.of_Q false (N1 # 1000000)), (Float.of_Q false (N2 # 1000000)).
  rewrite (CoordinateTheorems.decimal_degrees_shape n neg1 ds1 ms1 fs1 Hn L1 L2 L3 H1 H2 H3).
  rewrite (CoordinateTheorems.decimal_degrees_shape n neg2 ds2 ms2 fs2 Hn L4 L5 L6 H4 H5 H6).
  split; [exact E1|]. split; [exact E2|].
  destruct (ResultFacts.millionths N1 R1) as (P1 & Hp1 & Hn1).
  destruct (ResultFacts.millionths N2 R2) as (P2 & Hp2 & Hn2).
  cbn zeta in Hp1, Hn1, Hp2, Hn2.
  split; [exact P1|]. split; [exact P2|].
  (* the exact values are multiples of 1/600000 *)
  rewrite !DegreesFacts.exact_degrees in Hlt.
  assert (Ht : (600000 * degrees1 + k1 + 1 <= 600000 * degrees2 + k2)%Z).
  { assert (600000 * degrees1 + k1 < 600000 * degrees2 + k2)%Z; [|lia].
    apply DegreesFacts.inject_Z_lt_inv.
    set (a := inject_Z (600000 * degrees1 + k1)) in *.
    set (b := inject_Z (600000 * degrees2 + k2)) in *. lra. }
  apply Numeric.inject_Z_le in Ht. rewrite inject_Z_plus in Ht.
  change (inject_Z 1) with 1%Q in Ht.
  apply Qabs_Qle_condition in B1, B2.
  rewrite DegreesFacts.exact_degrees in B1, B2.
  rewrite (DegreesFacts.Qmake_inject N1) in B1.
  rewrite (DegreesFacts.Qmake_inject N2) in B2.
  pose proof (Numeric.inject_Z_le _ _ (proj1 R1)) as R1lo.
  pose proof (Numeric.inject_Z_le _ _ (proj2 R1)) as R1hi.
  pose proof (Numeric.inject_Z_le _ _ (proj1 R2)) as R2lo.
  pose proof (Numeric.inject_Z_le _ _ (proj2 R2)) as R2hi.
  change (inject_Z 2000000000) with 2000000000%Q in R1hi, R2hi.
  change (inject_Z (-2000000000)) with (-2000000000)%Q in R1lo, R2lo.
  set (I1 := inject_Z N1) in *. set (I2 := inject_Z N2) in *.
  set (a := inject_Z (600000 * degrees1 + k1)) in *.
  set (b := inject_Z (600000 * degrees2 + k2)) in *.
  set (x1 := Float.to_Q (Float.of_Q false (N1 # 1000000))) in *.
  set (x2 := Float.to_Q (Float.of_Q false (N2 # 1000000))) in *.
  destruct (Qlt_le_dec (I1 * (1 # 1000000)) 0) as [S1|S1];
    destruct (Qlt_le_dec (I2 * (1 # 1000000)) 0) as [S2|S2];
    [destruct (Hn1 S1) as [_ ?]; destruct (Hn2 S2) as [_ ?]
    |destruct (Hn1 S1) as [_ ?]; destruct (Hp2 S2) as [_ ?]
    |destruct (Hp1 S1) as [_ ?]; destruct (Hn2 S2) as [_ ?]
    |destruct (Hp1 S1) as [_ ?]; destruct (Hp2 S2) as [_ ?]]; lra.
Qed.

Lemma coordinate_conversion_increasing_witness :
  exists v1 v2 : Float.float,
    H02.decimal_degrees 2 "-0159.9999" = Ok v1
    /\ H02.decimal_degrees 2 "0000.0001" = Ok v2
    /\ (Float.to_Q v1 < Float.to_Q v2)%Q.
Proof.
  destruct (coordinate_conversion_increasing
              2 true false "01" "59" "9999" "00" "00" "0001")
    as (v1 & v2 & E1 & E2 & _ & _ & H); try reflexivity; [now left|].
  exists v1, v2. repeat split; assumption.
Defined.

(** X8: the value a coordinate conversion returns is already rounded:
    printed with six decimals and read back, as the conversion does in
    its last step, it is the same double. *)
Theorem coordinate_result_is_rounded
  (n : nat) (neg : bool) (ds ms fs : string) :
  (n = 2 \/ n = 3)%nat ->
  String.length ds = n -> String.length ms = 2%nat ->
  String.length fs = 4%nat ->
  Decimal.all_digits ds = true -> Decimal.all_digits ms = true ->
  Decimal.all_digits fs = true ->
  exists v : Float.float,
    H02.decimal_degrees n
      (Float.sign_string neg ++ ds ++ ms ++ String "." fs) = Ok v
    /\ Float.of_string (Float.format_f 6 v) = Ok v.
Proof.
  intros Hn Ln Lm Lf Hd Hm Hf.
  destruct (CoordinateTheorems.shape_ranges n neg ds ms fs Hn Ln Lm Lf Hd Hm Hf)
    as [Rd Rk].
  destruct (DegreesFacts.degrees_pipeline _ _ Rd Rk) as (N & E & B).
  exists (Float.of_Q false (N # 1000000)).
  rewrite (CoordinateTheorems.decimal_degrees_shape n neg ds ms fs Hn Ln Lm Lf Hd Hm Hf).
  split; [exact E|].
  apply ResultFacts.reround_millionths.
  exact (ResultFacts.degrees_N_range _ _ N Rd Rk B).
Qed.

Lemma coordinate_result_is_rounded_witness :
  exists v : Float.float,
    H02.decimal_degrees 3 "12754.4324" = Ok v
    /\ Float.of_string (Float.format_f 6 v) = Ok v.
Proof.
  apply (coordinate_result_is_rounded 3 false "127" "54" "4324");
    try reflexivity. now right.
Defined.

(** * Further properties of the speed conversion *)

(** X9: when the product of the knots and 1.852 is an infinity or not a
    number -- as for the tokens [inf] and [nan], or a value too large --
    the speed conversion raises [ValueError]: the padded text, such as
    [00inf], is not read by [float]. *)
Theorem speed_not_finite_fails :
  (forall (raw_speed : string) (knots : Float.float),
      Float.of_string raw_speed = Ok knots ->
      FloatSpecial.not_finite (Float.mul knots H02.knot) ->
      H02.speed_of raw_speed = Raise ValueError)
  /\ (forall knots : Float.float,
         FloatSpecial.not_finite knots ->
         FloatSpecial.not_finite (Float.mul knots H02.knot)).
Proof.
  split.
  - intros raw knots E H. unfold H02.speed_of. rewrite E. cbn [bind].
    destruct (Float.mul knots H02.knot) as [s|s| |s m e];
      cbn [FloatSpecial.not_finite] in H; try contradiction.
    + destruct s; vm_compute; reflexivity.
    + vm_compute; reflexivity.
  - intros knots H. rewrite SpeedFacts.knot_value.
    destruct knots as [s|s| |s m e]; cbn [FloatSpecial.not_finite] in H;
      try contradiction; exact I.
Qed.

Lemma speed_not_finite_fails_witness :
  H02.speed_of "inf" = Raise ValueError.
Proof.
  apply (proj1 speed_not_finite_fails "inf" (Float.Inf false));
    [reflexivity | vm_compute; exact I].
Defined.

(** X10: the speed conversion keeps the order of tokens of at most nine
    digits, a point and two digits: a larger knots value converts to a
    larger double, so different knots values never give one speed. *)
Theorem speed_conversion_increasing (ds1 fs1 ds2 fs2 : string) :
  (String.length ds1 <= 9)%nat -> String.length fs1 = 2%nat ->
  (String.length ds2 <= 9)%nat -> String.length fs2 = 2%nat ->
  Decimal.all_digits ds1 = true -> Decimal.all_digits fs1 = true ->
  Decimal.all_digits ds2 = true -> Decimal.all_digits fs2 = true ->
  Decimal.value (ds1 ++ fs1) < Decimal.value (ds2 ++ fs2) ->
  exists v1 v2 : Float.float,
    H02.speed_of (ds1 ++ String "." fs1) = Ok v1
    /\ H02.speed_of (ds2 ++ String "." fs2) = Ok v2
    /\ FloatKind.plain v1 /\ FloatKind.plain v2
    /\ (Float.to_Q v1 < Float.to_Q v2)%Q.
Proof.
  intros L1 L2 L3 L4 H1 H2 H3 H4 Hlt.
  pose proof (SpeedFacts.speed_range ds1 fs1 L1 L2 H1 H2) as R1.
  pose proof (SpeedFacts.speed_range ds2 fs2 L3 L4 H3 H4) as R2.
  set (k1 := Decimal.value (ds1 ++ fs1)) in *.
  set (k2 := Decimal.value (ds2 ++ fs2)) in *.
  destruct (SpeedFacts.speed_pipeline k1 R1) as (N1 & E1 & B1 & _).
  destruct (SpeedFacts.speed_pipeline k2 R2) as (N2 & E2 & B2 & _).
  pose proof (ResultFacts.speed_N_range k1 N1 R1 B1) as RN1.
  pose proof (ResultFacts.speed_N_range k2 N2 R2 B2) as RN2.
  exists (Float.of_Q false (N1 # 100)), (Float.of_Q false (N2 # 100)).
  rewrite (SpeedFacts.speed_of_shape ds1 fs1 L2 H1 H2).
  rewrite (SpeedFacts.speed_of_shape ds2 fs2 L4 H3 H4).
  split; [exact E1|]. split; [exact E2|].
  destruct (ResultFacts.hundredths N1 RN1) as (P1 & _ & Hb1).
  destruct (ResultFacts.hundredths N2 RN2) as (P2 & _ & Hb2).
  cbn zeta in Hb1, Hb2. split; [exact P1|]. split; [exact P2|].
  assert (Hk : (k1 + 1 <= k2)%Z) by lia.
  apply Numeric.inject_Z_le in Hk. rewrite inject_Z_plus in Hk.
  change (inject_Z 1) with 1%Q in Hk.
  apply Qabs_Qle_condition in B1, B2. unfold Shape.kmh in B1, B2.
  rewrite (DegreesFacts.Qmake_inject N1), (DegreesFacts.Qmake_inject k1) in B1.
  rewrite (DegreesFacts.Qmake_inject N2), (DegreesFacts.Qmake_inject k2) in B2.
  pose proof (Numeric.inject_Z_le _ _ (proj1 RN1)) as R1lo.
  pose proof (Numeric.inject_Z_le _ _ (proj2 RN1)) as R1hi.
  pose proof (Numeric.inject_Z_le _ _ (proj2 RN2)) as R2hi.
  change (inject_Z 200000000000) with 200000000000%Q in R1hi, R2hi.
  change (inject_Z 0) with 0%Q in R1lo.
  set (I1 := inject_Z N1) in *. set (I2 := inject_Z N2) in *.
  set (a := inject_Z k1) in *. set (b := inject_Z k2) in *.
  set (x1 := Float.to_Q (Float.of_Q false (N1 # 100))) in *.
  set (x2 := Float.to_Q (Float.of_Q false (N2 # 100))) in *.
  lra.
Qed.

Lemma speed_conversion_increasing_witness :
  exists v1 v2 : Float.float,
    H02.speed_of "001.24" = Ok v1 /\ H02.speed_of "001.25" = Ok v2
    /\ (Float.to_Q v1 < Float.to_Q v2)%Q.
Proof.
  destruct (speed_conversion_increasing "001" "24" "001" "25")
    as (v1 & v2 & E1 & E2 & _ & _ & H); try reflexivity;
    try (simpl; lia).
  exists v1, v2. repeat split; assumption.
Defined.

(** X11: the value the speed conversion returns is already rounded:
    printed with two decimals, padded and read back, as the conversion
    does in its last step, it is the same double. *)
Theorem speed_result_is_rounded (ds fs : string) :
  (String.length ds <= 9)%nat -> String.length fs = 2%nat ->
  Decimal.all_digits ds = true -> Decimal.all_digits fs = true ->
  exists v : Float.float,
    H02.speed_of (ds ++ String "." fs) = Ok v
    /\ Float.of_string (Float.zero_pad 5 (Float.format_f 2 v)) = Ok v.
Proof.
  intros Ld Lf Hd Hf.
  pose proof (SpeedFacts.speed_range ds fs Ld Lf Hd Hf) as R.
  destruct (SpeedFacts.speed_pipeline _ R) as (N & E & B & _).
  exists (Float.of_Q false (N # 100)).
  rewrite (SpeedFacts.speed_of_shape ds fs Lf Hd Hf).
  split; [exact E|].
  apply ResultFacts.reround_hundredths.
  exact (ResultFacts.speed_N_range _ N R B).
Qed.

Lemma speed_result_is_rounded_witness :
  exists v : Float.float,
    H02.speed_of "010.00" = Ok v
    /\ Float.of_string (Float.zero_pad 5 (Float.format_f 2 v)) = Ok v.
Proof.
  apply (speed_result_is_rounded "010" "00"); try reflexivity. simpl. lia.
Defined.

(** * Tokens that are not two hexadecimal digits *)

Module TokenFacts.

Lemma int16_minus_hex (c : ascii) :
  Char.is_hex c = true ->
  PyInt.int16 (String "-" (String c "")) = Ok (- Char.digit_value c).
Proof.
  intros H. apply is_hex_cases in H. simpl in H.
  repeat (destruct H as [<-|H]); try contradiction; vm_compute; reflexivity.
Qed.

Lemma lstrip_no_hex (s : string) :
  Str.all (fun c => negb (Char.is_hex c)) s = true ->
  Str.all (fun c => negb (Char.is_hex c)) (Str.lstrip s) = true.
Proof.
  induction s as [|c s IH]; [reflexivity|]. intros H.
  cbn [Str.lstrip]. destruct (Char.is_space c); [|exact H].
  apply IH. cbn [Str.all] in H. now apply andb_true_iff in H.
Qed.

Lemma strip_sign_no_hex (s : string) :
  Str.all (fun c => negb (Char.is_hex c)) s = true ->
  Str.all (fun c => negb (Char.is_hex c)) (snd (PyInt.strip_sign s)) = true.
Proof.
  destruct s as [|c s]; [reflexivity|]. intros H. cbn [PyInt.strip_sign].
  assert (Ht : Str.all (fun c => negb (Char.is_hex c)) s = true).
  { cbn [Str.all] in H. now apply andb_true_iff in H. }
  destruct (Ascii.eqb c "+"); [exact Ht|].
  destruct (Ascii.eqb c "-"); [exact Ht | exact H].
Qed.

Lemma strip_prefix_no_hex (s : string) :
  Str.all (fun c => negb (Char.is_hex c)) s = true ->
  PyInt.strip_prefix 16 s = s.
Proof.
  destruct s as [|c0 [|c1 t]]; try reflexivity. intros H.
  cbn [Str.all] in H. apply andb_true_iff in H as [H0 _].
  cbn [PyInt.strip_prefix].
  destruct (Ascii.eqb_spec c0 "0") as [->|_]; [discriminate H0|].
  now rewrite andb_false_r.
Qed.

Lemma int16_no_hex (s : string) :
  Str.all (fun c => negb (Char.is_hex c)) s = true ->
  PyInt.int16 s = Raise ValueError.
Proof.
  intros H. unfold PyInt.int16, PyInt.parse.
  pose proof (strip_sign_no_hex _ (lstrip_no_hex s H)) as H1.
  destruct (PyInt.strip_sign (Str.lstrip s)) as [neg s1]. cbn [snd] in H1.
  rewrite (strip_prefix_no_hex s1 H1).
  destruct s1 as [|c t]; [reflexivity|].
  destruct (Ascii.eqb c "_") eqn:Eu; [reflexivity|].
  cbn [PyInt.scan_digits]. rewrite Eu.
  cbn [Str.all] in H1. apply andb_true_iff in H1 as [Hc _].
  apply negb_true_iff in Hc. unfold Char.is_hex in Hc. rewrite Hc.
  reflexivity.
Qed.

End TokenFacts.

(** X12: a sign is read: a token made of a minus sign and a hexadecimal
    digit other than zero is a negative number, whose bits from the fifth
    on are all 1, so that every position from 5 up reads 0 -- where a token
    of two hexadecimal digits reads 1 from position 9 up. *)
Theorem get_bit_state_signed_token (c : ascii) (pos : Z) :
  Char.is_hex c = true -> Char.digit_value c <> 0 -> 5 <= pos ->
  H02.get_bit_state (String "-" (String c "")) pos = Ok 0.
Proof.
  intros Hc Hnz Hpos.
  rewrite (get_bit_state_testbit _ _ pos (TokenFacts.int16_minus_hex c Hc))
    by lia.
  rewrite Z.bits_opp by lia.
  rewrite (testbit_above _ 4 (pos - 1)).
  - reflexivity.
  - pose proof (digit_value_nonneg c). unfold Char.is_hex in Hc.
    apply Z.ltb_lt in Hc. change (2 ^ 4) with 16. lia.
  - lia.
Qed.

Lemma get_bit_state_signed_token_witness :
  H02.get_bit_state "-F" 9 = Ok 0.
Proof.
  apply (get_bit_state_signed_token "F" 9); [reflexivity | discriminate | lia].
Defined.

(** X13: a token without a hexadecimal digit -- the empty token among
    them -- makes [get_bit_state] raise [ValueError] at every position,
    from 1 to 8 or not. *)
Theorem get_bit_state_no_hex_digit (hex_byte : string) (pos : Z) :
  Str.all (fun c => negb (Char.is_hex c)) hex_byte = true ->
  H02.get_bit_state hex_byte pos = Raise ValueError.
Proof.
  intros H. unfold H02.get_bit_state.
  now rewrite (TokenFacts.int16_no_hex hex_byte H).
Qed.

Lemma get_bit_state_no_hex_digit_witness :
  H02.get_bit_state "ZZ" 6 = Raise ValueError
  /\ H02.get_bit_state "" 6 = Raise ValueError.
Proof.
  split.
  - apply (get_bit_state_no_hex_digit "ZZ" 6). reflexivity.
  - apply (get_bit_state_no_hex_digit "" 6). reflexivity.
Defined.

(** * Negative degrees *)

(** X14: the minutes are added to the degrees as signed: with minutes
    other than zero, the text [DDMM.MMMM] converts to a value above its
    degrees [D], and the text [-DDMM.MMMM] to a value above [-D], which
    therefore is not the opposite of the first: [-4413.5467] converts to
    [-43.774222], not to [-44.225778]. *)
Theorem negative_degrees_add_minutes (n : nat) (ds ms fs : string) :
  (n = 2 \/ n = 3)%nat ->
  String.length ds = n -> String.length ms = 2%nat ->
  String.length fs = 4%nat ->
  Decimal.all_digits ds = true -> Decimal.all_digits ms = true ->
  Decimal.all_digits fs = true ->
  0 < Decimal.value (ms ++ fs) ->
  exists v_pos v_neg : Float.float,
    H02.decimal_degrees n (ds ++ ms ++ String "." fs) = Ok v_pos
    /\ H02.decimal_degrees n (String "-" (ds ++ ms ++ String "." fs))
       = Ok v_neg
    /\ (inject_Z (Decimal.value ds) < Float.to_Q v_pos)%Q
    /\ (- inject_Z (Decimal.value ds) < Float.to_Q v_neg)%Q.
Proof.
  intros Hn Ln Lm Lf Hd Hm Hf Hk.
  destruct (CoordinateTheorems.shape_ranges n false ds ms fs Hn Ln Lm Lf Hd Hm Hf)
    as [Rd1 Rk].
  destruct (CoordinateTheorems.shape_ranges n true ds ms fs Hn Ln Lm Lf Hd Hm Hf)
    as [Rd2 _].
  cbv iota in Rd1, Rd2.
  set (D := Decimal.value ds) in *.
  set (k := Decimal.value (ms ++ fs)) in *.
  destruct (DegreesFacts.degrees_pipeline D k Rd1 Rk) as (N1 & E1 & B1).
  destruct (DegreesFacts.degrees_pipeline (- D) k Rd2 Rk) as (N2 & E2 & B2).
  pose proof (ResultFacts.degrees_N_range D k N1 Rd1 Rk B1) as R1.
  pose proof (ResultFacts.degrees_N_range (- D) k N2 Rd2 Rk B2) as R2.
  exists (Float.of_Q false (N1 # 1000000)), (Float.of_Q false (N2 # 1000000)).
  pose proof (CoordinateTheorems.decimal_degrees_shape
                n false ds ms fs Hn Ln Lm Lf Hd Hm Hf) as S1.
  pose proof (CoordinateTheorems.decimal_degrees_shape
                n true ds ms fs Hn Ln Lm Lf Hd Hm Hf) as S2.
  cbn [Float.sign_string String.append] in S1, S2. cbv iota in S1, S2.
  fold D in S1, S2. fold k in S1, S2.
  rewrite S1, S2.
  split; [exact E1|]. split; [exact E2|].
  destruct (ResultFacts.millionths N1 R1) as (_ & Hp1 & Hn1).
  destruct (ResultFacts.millionths N2 R2) as (_ & Hp2 & Hn2).
  cbn zeta in Hp1, Hn1, Hp2, Hn2.
  apply Qabs_Qle_condition in B1, B2.
  rewrite DegreesFacts.exact_degrees in B1, B2.
  rewrite (DegreesFacts.Qmake_inject N1) in B1.
  rewrite (DegreesFacts.Qmake_inject N2) in B2.
  rewrite inject_Z_plus, inject_Z_mult in B1, B2.
  rewrite inject_Z_opp in B2.
  change (inject_Z 600000) with 600000%Q in B1, B2.
  pose proof (Numeric.inject_Z_ge1 k ltac:(lia)) as Hk1.
  pose proof (Numeric.inject_Z_le _ _ (proj1 Rd1)) as Dlo.
  pose proof (Numeric.inject_Z_le _ _ (proj2 Rd1)) as Dhi.
  pose proof (Numeric.inject_Z_le _ _ (proj1 R1)) as R1lo.
  pose proof (Numeric.inject_Z_le _ _ (proj2 R1)) as R1hi.
  pose proof (Numeric.inject_Z_le _ _ (proj1 R2)) as R2lo.
  pose proof (Numeric.inject_Z_le _ _ (proj2 R2)) as R2hi.
  change (inject_Z 2000000000) with 2000000000%Q in R1hi, R2hi.
  change (inject_Z (-2000000000)) with (-2000000000)%Q in R1lo, R2lo.
  change (inject_Z 999) with 999%Q in Dhi.
  change (inject_Z (-999)) with (-999)%Q in Dlo.
  set (I1 := inject_Z N1) in *. set (I2 := inject_Z N2) in *.
  set (d := inject_Z D) in *. set (kk := inject_Z k) in *.
  set (x1 := Float.to_Q (Float.of_Q false (N1 # 1000000))) in *.
  set (x2 := Float.to_Q (Float.of_Q false (N2 # 1000000))) in *.
  split.
  - destruct (Qlt_le_dec (I1 * (1 # 1000000)) 0) as [S|S];
      [destruct (Hn1 S) as [_ ?] | destruct (Hp1 S) as [_ ?]]; lra.
  - destruct (Qlt_le_dec (I2 * (1 # 1000000)) 0) as [S|S];
      [destruct (Hn2 S) as [_ ?] | destruct (Hp2 S) as [_ ?]]; lra.
Qed.

Lemma negative_degrees_add_minutes_witness :
  exists v_pos v_neg : Float.float,
    H02.decimal_degrees 2 "4413.5467" = Ok v_pos
    /\ H02.decimal_degrees 2 "-4413.5467" = Ok v_neg
    /\ (44 < Float.to_Q v_pos)%Q /\ (- (44) < Float.to_Q v_neg)%Q.
Proof.
  apply (negative_degrees_add_minutes 2 "44" "13" "5467");
    try reflexivity. now left.
Defined.
